(** * The trading-alert relay [bot.py]: a shallow embedding and its properties

    [bot.py] receives JSON payloads on [POST /webhook], checks a shared
    secret, and schedules [send_alert], which picks one of five formatters
    by the payload's [type] and posts an embed to one Discord channel.

    The embedding follows the file top to bottom.  Python values that can
    come out of [request.json] are the type [pyval]; floats are IEEE
    binary64 values ([spec_float] with precision 53 and [emax] 1024);
    strings are byte strings holding UTF-8.  The built-ins the program
    calls ([float], [abs], [format], [str], [json.dumps]) are written out
    as functions; the three places where CPython consults its Unicode
    character database are taken from a [UnicodeDB].  The chat client and
    the HTTP framework are the environment: what the program hands to them
    is recorded in the [world], what they may answer is a field of
    [environment], [channel] or [request]. *)

From Stdlib Require Import ZArith NArith List String Ascii Bool Lia.
From Stdlib Require Import DecimalString SpecFloat.
From Stdlib Require DecimalPos DecimalN.
Import ListNotations.

Open Scope string_scope.
Open Scope Z_scope.

(** ** Characters and digit strings *)

Definition chr (n : Z) : ascii := ascii_of_N (Z.to_N n).
Definition ord (c : ascii) : Z := Z.of_N (N_of_ascii c).

Definition str1 (c : ascii) : string := String c EmptyString.

Definition backslash : string := str1 (chr 92).
Definition dquote : string := str1 (chr 34).
Definition newline : string := str1 (chr 10).

Fixpoint repeat_string (n : nat) (s : string) : string :=
  match n with
  | O => ""
  | S k => s ++ repeat_string k s
  end.

(** Decimal digits of a non-negative integer, ["0"] for zero. *)
Definition digits_of_N (n : N) : string := NilZero.string_of_uint (N.to_uint n).

(** [str(z)] for a Python [int]. *)
Definition int_str (z : Z) : string :=
  match z with
  | Z0 => "0"
  | Zpos p => digits_of_N (Npos p)
  | Zneg p => "-" ++ digits_of_N (Npos p)
  end.

(** [n] written with at least [w] digits, zero-filled on the left. *)
Definition zero_pad (w : nat) (n : N) : string :=
  let d := digits_of_N n in
  repeat_string (w - String.length d) "0" ++ d.

Definition hex_digit (n : Z) : ascii :=
  if n <? 10 then chr (48 + n) else chr (87 + n).

(** [w] lower-case hexadecimal digits of [n], most significant first. *)
Fixpoint hex_fixed (w : nat) (n : Z) : string :=
  match w with
  | O => ""
  | S k => hex_fixed k (n / 16) ++ str1 (hex_digit (n mod 16))
  end.

(** ** Binary64 numbers

    A Python [float] is an IEEE binary64 value.  [S754_finite s m e] is
    [(-1)^s * m * 2^e]; the arithmetic is the Standard Library's
    specification of the IEEE operations at precision 53. *)

Definition float : Set := spec_float.

Definition prec : Z := 53.
Definition emax : Z := 1024.

Definition float_sub (x y : float) : float := SFsub prec emax x y.
Definition float_abs (x : float) : float := SFabs x.
Definition float_zero : float := S754_zero false.

(** [x > 0] and [x < 0] with the [int] literal [0] on the right: Python
    compares a float with an int by value, and a NaN is neither. *)
Definition float_gt0 (x : float) : bool := SFltb float_zero x.
Definition float_lt0 (x : float) : bool := SFltb x float_zero.
Definition float_le0 (x : float) : bool := SFleb x float_zero.
Definition float_eq0 (x : float) : bool := SFeqb x float_zero.

(** [n / d] rounded to the nearest integer, a tie going to the even one
    ([d] positive, [n] non-negative). *)
Definition round_half_even (n d : Z) : Z :=
  let q := n / d in
  match 2 * (n mod d) ?= d with
  | Lt => q
  | Gt => q + 1
  | Eq => if Z.even q then q else q + 1
  end.

(** The nearest binary64 to [(-1)^s * n / d], ties to even: the quotient
    is taken at the exponent of the smallest subnormal, where every
    binary64 is an integer, and the remainder decides the rounding. *)
Definition float_of_ratio (s : bool) (n d : Z) : float :=
  let (q, r) := Z.div_eucl (Z.shiftl n 1074) d in
  binary_round_aux prec emax s q (-1074) (new_location d r).

(** [m * 10^k] as a binary64, correctly rounded: what [float] makes of a
    decimal numeral. *)
Definition float_of_decimal (s : bool) (m k : Z) : float :=
  if 0 <=? k then float_of_ratio s (m * 10 ^ k) 1
  else float_of_ratio s m (10 ^ (- k)).

(** [float(z)] for a Python [int]: the nearest binary64, and
    [OverflowError] (here [None]) when that is beyond the largest one. *)
Definition float_of_int (z : Z) : option float :=
  match binary_normalize prec emax z 0 false with
  | S754_infinity _ => None
  | f => Some f
  end.

(** ** [format(x, ".Nf")] with the [+] and [,] options *)

(** [m * 2^e * 10^p] rounded to an integer, ties to even: the digits of a
    finite float at [p] decimals. *)
Definition scaled_digits (m : positive) (e : Z) (p : nat) : Z :=
  let t := 10 ^ Z.of_nat p in
  if 0 <=? e then Zpos m * 2 ^ e * t
  else round_half_even (Zpos m * t) (2 ^ (- e)).

(** Thousands separators: a comma before every group of three digits,
    counted from the right. *)
Fixpoint group3_rev (ds : list ascii) : list ascii :=
  match ds with
  | a :: b :: c :: ((_ :: _) as rest) => a :: b :: c :: ","%char :: group3_rev rest
  | _ => ds
  end.

Definition group3 (s : string) : string :=
  string_of_list_ascii (rev (group3_rev (rev (list_ascii_of_string s)))).

Definition sign_text (plus neg : bool) : string :=
  if neg then "-" else if plus then "+" else "".

(** The unsigned text of [h / 10^p] with [p] decimals. *)
Definition fixed_text (comma : bool) (p : nat) (h : Z) : string :=
  let t := 10 ^ Z.of_nat p in
  let ip := digits_of_N (Z.to_N (h / t)) in
  let ip := if comma then group3 ip else ip in
  match p with
  | O => ip
  | _ => ip ++ "." ++ zero_pad p (Z.to_N (h mod t))
  end.

(** [format(x, "[+][,].pf")].  The sign of a zero and of a value that
    rounds to zero is kept; a NaN never shows a minus sign. *)
Definition format_f (plus comma : bool) (p : nat) (x : float) : string :=
  match x with
  | S754_nan => sign_text plus false ++ "nan"
  | S754_infinity s => sign_text plus s ++ "inf"
  | S754_zero s => sign_text plus s ++ fixed_text comma p 0
  | S754_finite s m e => sign_text plus s ++ fixed_text comma p (scaled_digits m e p)
  end.

(** ** [repr(x)] of a float: the shortest numeral that reads back

    [repr] prints the shortest decimal numeral whose nearest binary64 is
    [x], and among those of that length the one nearest to [x].  The
    numerals that read back as [m * 2^e] are those between the midpoints
    to the neighbouring floats, the midpoints included when [m] is even. *)

(** [D * 10^k] compared with [B * 2^e]. *)
Definition cmp_dec_bin (D k B e : Z) : comparison :=
  (D * 10 ^ Z.max k 0 * 2 ^ Z.max (- e) 0) ?= (B * 2 ^ Z.max e 0 * 10 ^ Z.max (- k) 0).

(** The integer part of [m * 2^e / 10^k]. *)
Definition floor_dec (m : positive) (e k : Z) : Z :=
  (Zpos m * 2 ^ Z.max e 0 * 10 ^ Z.max (- k) 0) / (2 ^ Z.max (- e) 0 * 10 ^ Z.max k 0).

(** Does the numeral [D * 10^k] read back as [m * 2^e]?  Everything is
    counted in quarters of the unit in the last place. *)
Definition reads_back (m : positive) (e : Z) (D k : Z) : bool :=
  let x := 4 * Zpos m in
  let lo := if (Zpos m =? 2 ^ 52) && (-1074 <? e) then x - 1 else x - 2 in
  let hi := x + 2 in
  let incl := Z.even (Zpos m) in
  match cmp_dec_bin D k lo (e - 2) with Gt => true | Eq => incl | Lt => false end
  && match cmp_dec_bin D k hi (e - 2) with Lt => true | Eq => incl | Gt => false end.

(** The numeral with exponent [k] nearest to [m * 2^e] that reads back,
    if there is one: one of the two that enclose the value. *)
Definition shortest_at (m : positive) (e k : Z) : option Z :=
  let dlo := floor_dec m e k in
  let dhi := dlo + 1 in
  match reads_back m e dlo k, reads_back m e dhi k with
  | true, true =>
      match cmp_dec_bin (2 * dlo + 1) k (8 * Zpos m) (e - 2) with
      | Gt => Some dlo
      | Lt => Some dhi
      | Eq => Some (if Z.even dlo then dlo else dhi)
      end
  | true, false => Some dlo
  | false, true => Some dhi
  | false, false => None
  end.

(** The least [p] from [p0] on with [m * 2^e < 10^p]. *)
Fixpoint decimal_point_from (fuel : nat) (m : positive) (e p0 : Z) : Z :=
  match fuel with
  | O => p0
  | S f =>
      match cmp_dec_bin 1 p0 (Zpos m) e with
      | Gt => p0
      | _ => decimal_point_from f m e (p0 + 1)
      end
  end.

(** The position of the decimal point: [10^(p-1) <= m * 2^e < 10^p]. *)
Definition decimal_point (m : positive) (e : Z) : Z :=
  decimal_point_from 8 m e ((Z.log2 (Zpos m) + e) * 30103 / 100000 - 1).

(** Try 1, 2, ... significant digits; 17 always suffice. *)
Fixpoint shortest_from (fuel : nat) (m : positive) (e p : Z) (n : Z) : Z * Z :=
  match fuel with
  | O => (floor_dec m e (p - n), p - n)
  | S f =>
      match shortest_at m e (p - n) with
      | Some D => (D, p - n)
      | None => shortest_from f m e p (n + 1)
      end
  end.

Fixpoint strip_zeros (fuel : nat) (D k : Z) : Z * Z :=
  match fuel with
  | O => (D, k)
  | S f => if (D mod 10 =? 0) && negb (D =? 0) then strip_zeros f (D / 10) (k + 1) else (D, k)
  end.

(** The digits of the shortest numeral and the position of its decimal
    point: the value is [0.digits * 10^decpt]. *)
Definition shortest_digits (m : positive) (e : Z) : string * Z :=
  let '(D, k) := shortest_from 17 m e (decimal_point m e) 1 in
  let '(D, k) := strip_zeros 20 D k in
  let ds := digits_of_N (Z.to_N D) in
  (ds, Z.of_nat (String.length ds) + k).

(** How [repr] lays the digits out: scientific notation from [1e16] up
    and below [1e-4], positional otherwise with at least one decimal. *)
Definition repr_layout (ds : string) (decpt : Z) : string :=
  let len := Z.of_nat (String.length ds) in
  if (decpt <=? -4) || (16 <? decpt) then
    let x := decpt - 1 in
    substring 0 1 ds
    ++ (if 1 <? len then "." ++ substring 1 (String.length ds - 1) ds else "")
    ++ "e" ++ (if x <? 0 then "-" else "+") ++ zero_pad 2 (Z.to_N (Z.abs x))
  else if decpt <=? 0 then
    "0." ++ repeat_string (Z.to_nat (- decpt)) "0" ++ ds
  else if len <=? decpt then
    ds ++ repeat_string (Z.to_nat (decpt - len)) "0" ++ ".0"
  else
    substring 0 (Z.to_nat decpt) ds ++ "." ++ substring (Z.to_nat decpt) (String.length ds) ds.

Definition float_repr (x : float) : string :=
  match x with
  | S754_nan => "nan"
  | S754_infinity s => sign_text false s ++ "inf"
  | S754_zero s => sign_text false s ++ "0.0"
  | S754_finite s m e =>
      let (ds, decpt) := shortest_digits m e in
      sign_text false s ++ repr_layout ds decpt
  end.

(** ** Text: UTF-8 and the Unicode character database

    A Python [str] is a sequence of code points; here it is the byte
    string of its UTF-8 encoding, and [utf8_decode] gives the code points
    back.  Three tests on code points above ASCII come from CPython's
    Unicode tables, which change with the Unicode version: they are the
    methods of [UnicodeDB]. *)

Definition bytes_of (s : string) : list Z := map ord (list_ascii_of_string s).

Definition cont (b : Z) : Z := Z.land b 63.

Fixpoint utf8_decode_bytes (l : list Z) : list Z :=
  match l with
  | [] => []
  | b :: rest =>
      if b <? 128 then b :: utf8_decode_bytes rest
      else if b <? 224 then
        match rest with
        | c1 :: r => (Z.land b 31 * 64 + cont c1) :: utf8_decode_bytes r
        | [] => [b]
        end
      else if b <? 240 then
        match rest with
        | c1 :: c2 :: r => (Z.land b 15 * 4096 + cont c1 * 64 + cont c2) :: utf8_decode_bytes r
        | _ => [b]
        end
      else
        match rest with
        | c1 :: c2 :: c3 :: r =>
            (Z.land b 7 * 262144 + cont c1 * 4096 + cont c2 * 64 + cont c3) :: utf8_decode_bytes r
        | _ => [b]
        end
  end.

Definition utf8_decode (s : string) : list Z := utf8_decode_bytes (bytes_of s).

Definition utf8_encode (cp : Z) : string :=
  if cp <? 128 then str1 (chr cp)
  else if cp <? 2048 then
    String (chr (192 + cp / 64)) (str1 (chr (128 + cp mod 64)))
  else if cp <? 65536 then
    String (chr (224 + cp / 4096))
      (String (chr (128 + cp / 64 mod 64)) (str1 (chr (128 + cp mod 64))))
  else
    String (chr (240 + cp / 262144))
      (String (chr (128 + cp / 4096 mod 64))
         (String (chr (128 + cp / 64 mod 64)) (str1 (chr (128 + cp mod 64))))).

Class UnicodeDB : Type := {
  (** [str.isspace] of one character *)
  uni_isspace : Z -> bool;
  (** the decimal digit value of a character, if it is a decimal digit *)
  uni_todecimal : Z -> option Z;
  (** [str.isprintable] of one character *)
  uni_isprintable : Z -> bool
}.

(** A database in which no character above ASCII is a space, a digit or
    printable; for running the model on ASCII text. *)
Definition ascii_only_db : UnicodeDB :=
  {| uni_isspace := fun _ => false;
     uni_todecimal := fun _ => None;
     uni_isprintable := fun _ => false |}.

(** ** [float(s)] for a string *)

Definition is_digit (c : ascii) : bool := (48 <=? ord c) && (ord c <=? 57).

(** C's [isspace] in the "C" locale, which [float] strips at both ends. *)
Definition is_c_space (c : ascii) : bool :=
  (ord c =? 32) || ((9 <=? ord c) && (ord c <=? 13)).

Definition to_lower (c : ascii) : ascii :=
  if (65 <=? ord c) && (ord c <=? 90) then chr (ord c + 32) else c.

Fixpoint drop_spaces (l : list ascii) : list ascii :=
  match l with
  | c :: r => if is_c_space c then drop_spaces r else l
  | [] => []
  end.

Definition strip_spaces (l : list ascii) : list ascii :=
  rev (drop_spaces (rev (drop_spaces l))).

(** Underscores may only stand between two digits; they are removed.
    [prev] is the character before, NUL at the start. *)
Fixpoint drop_underscores (prev : ascii) (l : list ascii) : option (list ascii) :=
  match l with
  | [] => if (ord prev =? 95) then None else Some []
  | c :: r =>
      if ord c =? 95 then
        if is_digit prev then drop_underscores c r else None
      else if (ord prev =? 95) && negb (is_digit c) then None
      else option_map (cons c) (drop_underscores c r)
  end.

(** A run of digits: its value continuing [acc], its length, the rest. *)
Fixpoint read_digits (l : list ascii) (acc : Z) (n : Z) : Z * Z * list ascii :=
  match l with
  | c :: r => if is_digit c then read_digits r (acc * 10 + (ord c - 48)) (n + 1) else (acc, n, l)
  | [] => (acc, n, l)
  end.

Definition read_sign (l : list ascii) : bool * list ascii :=
  match l with
  | c :: r => if ord c =? 45 then (true, r) else if ord c =? 43 then (false, r) else (false, l)
  | [] => (false, l)
  end.

(** The exponent part [e[+-]digits]; when it is not well formed nothing
    is consumed and the exponent is 0. *)
Definition read_exponent (l : list ascii) : Z * list ascii :=
  match l with
  | c :: r =>
      if ord (to_lower c) =? 101 then
        let (neg, r1) := read_sign r in
        let '(x, n, r2) := read_digits r1 0 0 in
        if n =? 0 then (0, l) else ((if neg then - x else x), r2)
      else (0, l)
  | [] => (0, l)
  end.

(** A decimal numeral, all of [l]: digits with an optional point and at
    least one digit, then an optional exponent. *)
Definition read_decimal (neg : bool) (l : list ascii) : option float :=
  let '(ip, n1, r1) := read_digits l 0 0 in
  let '(m, n2, r2) :=
    match r1 with
    | c :: r => if ord c =? 46 then read_digits r ip 0 else (ip, 0, r1)
    | [] => (ip, 0, r1)
    end in
  if n1 + n2 =? 0 then None
  else
    match read_exponent r2 with
    | (x, []) => Some (float_of_decimal neg m (x - n2))
    | _ => None
    end.

Definition lower_string (l : list ascii) : string :=
  string_of_list_ascii (map to_lower l).

(** [inf], [infinity] and [nan] in any case, all of [l]. *)
Definition read_inf_nan (neg : bool) (l : list ascii) : option float :=
  let w := lower_string l in
  if (w =? "inf")%string || (w =? "infinity")%string then Some (S754_infinity neg)
  else if (w =? "nan")%string then Some S754_nan
  else None.

Definition read_float (l : list ascii) : option float :=
  let (neg, r) := read_sign l in
  match read_decimal neg r with
  | Some f => Some f
  | None => read_inf_nan neg r
  end.

Section WithUnicode.
Context {udb : UnicodeDB}.

(** Before parsing, a string with a character above ASCII has each
    Unicode space turned into a blank and each Unicode decimal digit
    into its ASCII digit; the first other character above 126 becomes
    ["?"] and ends the text. *)
Fixpoint transform_decimal_and_space (cps : list Z) : list ascii :=
  match cps with
  | [] => []
  | cp :: r =>
      if cp <? 127 then chr cp :: transform_decimal_and_space r
      else if uni_isspace cp then " "%char :: transform_decimal_and_space r
      else
        match uni_todecimal cp with
        | Some d =>
            if (0 <=? d) && (d <=? 9) then chr (48 + d) :: transform_decimal_and_space r
            else ["?"%char]
        | None => ["?"%char]
        end
  end.

Definition numeric_text (s : string) : list ascii :=
  let cps := utf8_decode s in
  if forallb (fun cp => cp <? 128) cps then list_ascii_of_string s
  else transform_decimal_and_space cps.

(** [float(s)]: [None] stands for [ValueError]. *)
Definition float_of_string (s : string) : option float :=
  match drop_underscores zero (strip_spaces (numeric_text s)) with
  | Some l => read_float l
  | None => None
  end.

End WithUnicode.

(** ** Python values

    What [request.json] can return: [None], booleans, integers, floats,
    strings, lists, and dictionaries with string keys.  A dictionary
    keeps its keys in insertion order, which [json.dumps] and [repr]
    follow, so it is an association list; [json] never builds one with
    the same key twice. *)

#[local] Set Warnings "-register-all".

Inductive pyval : Type :=
| PNone
| PBool (b : bool)
| PInt (z : Z)
| PFloat (x : float)
| PStr (s : string)
| PList (l : list pyval)
| PDict (d : list (string * pyval)).

Definition dict : Type := list (string * pyval).

(** [key in d] *)
Fixpoint dict_has (d : dict) (key : string) : bool :=
  match d with
  | [] => false
  | (k, _) :: r => if (k =? key)%string then true else dict_has r key
  end.

(** [d[key]], for a key that is there *)
Fixpoint dict_lookup (d : dict) (key : string) : option pyval :=
  match d with
  | [] => None
  | (k, v) :: r => if (k =? key)%string then Some v else dict_lookup r key
  end.

(** [d.get(key, default)] *)
Definition dict_get (d : dict) (key : string) (default : pyval) : pyval :=
  match dict_lookup d key with
  | Some v => v
  | None => default
  end.

(** [v == s] for a string literal [s]: only an equal string is equal. *)
Definition py_eq_str (v : pyval) (s : string) : bool :=
  match v with
  | PStr t => (t =? s)%string
  | _ => false
  end.

(** [type(v).__name__] *)
Definition type_name (v : pyval) : string :=
  match v with
  | PNone => "NoneType"
  | PBool _ => "bool"
  | PInt _ => "int"
  | PFloat _ => "float"
  | PStr _ => "str"
  | PList _ => "list"
  | PDict _ => "dict"
  end.

Fixpoint join (sep : string) (l : list string) : string :=
  match l with
  | [] => ""
  | [x] => x
  | x :: r => x ++ sep ++ join sep r
  end.

Fixpoint concat_map {A} (f : A -> string) (l : list A) : string :=
  match l with
  | [] => ""
  | x :: r => f x ++ concat_map f r
  end.

(** *** [json.dumps] *)

(** One character of a JSON string with [ensure_ascii]: everything
    outside [' '..'~'] is escaped, above the basic plane as a surrogate
    pair. *)
Definition json_escape_char (cp : Z) : string :=
  if cp =? 34 then backslash ++ dquote
  else if cp =? 92 then backslash ++ backslash
  else if cp =? 10 then backslash ++ "n"
  else if cp =? 13 then backslash ++ "r"
  else if cp =? 9 then backslash ++ "t"
  else if cp =? 8 then backslash ++ "b"
  else if cp =? 12 then backslash ++ "f"
  else if (32 <=? cp) && (cp <=? 126) then str1 (chr cp)
  else if cp <? 65536 then backslash ++ "u" ++ hex_fixed 4 cp
  else
    let v := cp - 65536 in
    backslash ++ "u" ++ hex_fixed 4 (55296 + v / 1024)
    ++ backslash ++ "u" ++ hex_fixed 4 (56320 + v mod 1024).

Definition json_string (s : string) : string :=
  dquote ++ concat_map json_escape_char (utf8_decode s) ++ dquote.

Definition json_float (x : float) : string :=
  match x with
  | S754_nan => "NaN"
  | S754_infinity false => "Infinity"
  | S754_infinity true => "-Infinity"
  | _ => float_repr x
  end.

Definition newline_indent (indent level : nat) : string :=
  newline ++ repeat_string (indent * level) " ".

(** [json.dumps(v, indent=indent)] at nesting depth [level]: one item per
    line, items separated by [","], a key from its value by [": "]. *)
Fixpoint json_encode (indent level : nat) (v : pyval) : string :=
  match v with
  | PNone => "null"
  | PBool true => "true"
  | PBool false => "false"
  | PInt z => int_str z
  | PFloat x => json_float x
  | PStr s => json_string s
  | PList [] => "[]"
  | PList l =>
      "[" ++ newline_indent indent (S level)
      ++ join ("," ++ newline_indent indent (S level)) (map (json_encode indent (S level)) l)
      ++ newline_indent indent level ++ "]"
  | PDict [] => "{}"
  | PDict d =>
      "{" ++ newline_indent indent (S level)
      ++ join ("," ++ newline_indent indent (S level))
           (map (fun kv => match kv with
                           | (k, x) => json_string k ++ ": " ++ json_encode indent (S level) x
                           end) d)
      ++ newline_indent indent level ++ "}"
  end.

Definition json_dumps (indent : nat) (v : pyval) : string := json_encode indent 0 v.

Section WithUnicodeText.
Context {udb : UnicodeDB}.

(** *** [repr] and [str] *)

Definition repr_char (quote : Z) (cp : Z) : string :=
  if (cp =? quote) || (cp =? 92) then backslash ++ str1 (chr cp)
  else if cp =? 9 then backslash ++ "t"
  else if cp =? 10 then backslash ++ "n"
  else if cp =? 13 then backslash ++ "r"
  else if (cp <? 32) || (cp =? 127) then backslash ++ "x" ++ hex_fixed 2 cp
  else if cp <? 127 then str1 (chr cp)
  else if uni_isprintable cp then utf8_encode cp
  else if cp <? 256 then backslash ++ "x" ++ hex_fixed 2 cp
  else if cp <? 65536 then backslash ++ "u" ++ hex_fixed 4 cp
  else backslash ++ "U" ++ hex_fixed 8 cp.

(** [repr(s)]: single quotes, unless the text has a single quote and
    no double quote. *)
Definition str_repr (s : string) : string :=
  let cps := utf8_decode s in
  let quote :=
    if existsb (Z.eqb 39) cps && negb (existsb (Z.eqb 34) cps) then 34 else 39 in
  str1 (chr quote) ++ concat_map (repr_char quote) cps ++ str1 (chr quote).

Fixpoint py_repr (v : pyval) : string :=
  match v with
  | PNone => "None"
  | PBool true => "True"
  | PBool false => "False"
  | PInt z => int_str z
  | PFloat x => float_repr x
  | PStr s => str_repr s
  | PList l => "[" ++ join ", " (map py_repr l) ++ "]"
  | PDict d =>
      "{" ++ join ", " (map (fun kv => match kv with
                                        | (k, x) => str_repr k ++ ": " ++ py_repr x
                                        end) d) ++ "}"
  end.

(** [str(v)], which is also what [{v}] in an f-string gives. *)
Definition py_str (v : pyval) : string :=
  match v with
  | PStr s => s
  | _ => py_repr v
  end.

End WithUnicodeText.

(** ** Exceptions and results *)

Inductive exn_class : Type :=
| AttributeError
| KeyError
| OverflowError
| TypeError
| ValueError
| OtherError (name : string).

(** An exception: its class and [str(e)]. *)
Record exn : Type := Exn { exn_class_of : exn_class; exn_str : string }.

Inductive res (A : Type) : Type :=
| Ok (a : A)
| Raise (e : exn).

Arguments Ok {A} a.
Arguments Raise {A} e.

Definition res_bind {A B : Type} (r : res A) (k : A -> res B) : res B :=
  match r with
  | Ok a => k a
  | Raise e => Raise e
  end.

Declare Scope res_scope.
Delimit Scope res_scope with res.
Notation "x <- r ;; k" := (res_bind r (fun x => k))
  (at level 61, r at next level, right associativity) : res_scope.

Definition raises {A : Type} (r : res A) : bool :=
  match r with
  | Ok _ => false
  | Raise _ => true
  end.

(** [d[key]] *)
Definition dict_getitem {udb : UnicodeDB} (d : dict) (key : string) : res pyval :=
  match dict_lookup d key with
  | Some v => Ok v
  | None => Raise (Exn KeyError (str_repr key))
  end.

(** [float(v)]: a bool counts as the int it is, an int must be in range,
    a string must spell a number, anything else is a [TypeError]. *)
Definition py_float {udb : UnicodeDB} (v : pyval) : res float :=
  match v with
  | PFloat x => Ok x
  | PBool b =>
      Ok (if b then S754_finite false 4503599627370496 (-52) else float_zero)
  | PInt z =>
      match float_of_int z with
      | Some x => Ok x
      | None => Raise (Exn OverflowError "int too large to convert to float")
      end
  | PStr s =>
      match float_of_string s with
      | Some x => Ok x
      | None => Raise (Exn ValueError ("could not convert string to float: " ++ str_repr s))
      end
  | _ =>
      Raise (Exn TypeError
               ("float() argument must be a string or a real number, not '"
                ++ type_name v ++ "'"))
  end.

(** ** The chat client, the clock and the process *)

Record field : Type := {
  name : string;
  value : pyval;
  inline : bool
}.

(** A [discord.Embed] as the program builds it: the arguments of the
    constructor, of each [add_field] in order, and of [set_footer].  A
    field holds the text of its value, as [add_field] stores it. *)
Record embed : Type := {
  title : string;
  description : option string;
  color : Z;
  timestamp : Z;
  fields : list field;
  footer : option string
}.

(** What is handed to [channel.send]. *)
Inductive outgoing : Type :=
| Content (text : string)
| Embedded (e : embed).

(** A channel: for each message, the exception [send] raises, if any. *)
Record channel : Type := {
  send_error : outgoing -> option exn
}.

Record config : Type := {
  DISCORD_CHANNEL_ID : Z;
  WEBHOOK_SECRET : string
}.

Record environment : Type := {
  (** [bot.get_channel(id)] *)
  get_channel : Z -> option channel;
  (** [datetime.utcnow()] *)
  utcnow : Z;
  (** the exception of [bot.loop.create_task], if the loop refuses *)
  create_task_error : option exn
}.

(** The state the program acts on: the lines the program prints with
    [print], the [send_alert] coroutines scheduled on the bot's loop and
    not yet run, each with its argument, and the messages the channel has
    accepted.  What the loop's own exception handler logs about a task
    that ended with an exception is no part of it. *)
Record world : Type := {
  stdout : list string;
  tasks : list pyval;
  outbox : list outgoing
}.

Definition M (A : Type) : Type := world -> res A * world.

Definition ret {A : Type} (a : A) : M A := fun w => (Ok a, w).

Definition bind {A B : Type} (m : M A) (k : A -> M B) : M B :=
  fun w =>
    match m w with
    | (Ok a, w') => k a w'
    | (Raise e, w') => (Raise e, w')
    end.

Definition lift {A : Type} (r : res A) : M A := fun w => (r, w).

Declare Scope M_scope.
Delimit Scope M_scope with M.
Notation "x <- m ;; k" := (bind m (fun x => k))
  (at level 61, m at next level, right associativity) : M_scope.

Definition print (line : string) : M unit :=
  fun w => (Ok tt, {| stdout := stdout w ++ [line]; tasks := tasks w; outbox := outbox w |}).

(** [await channel.send(...)] *)
Definition channel_send (ch : channel) (msg : outgoing) : M unit :=
  fun w =>
    match send_error ch msg with
    | Some e => (Raise e, w)
    | None =>
        (Ok tt, {| stdout := stdout w; tasks := tasks w; outbox := outbox w ++ [msg] |})
    end.

Definition GREEN : Z := 0x00FF00.
Definition RED : Z := 0xFF0000.

(** ** The formatters *)

Section Relay.
Context {udb : UnicodeDB}.

Open Scope res_scope.

Definition mk_field (n : string) (v : string) (i : bool) : field :=
  {| name := n; value := PStr v; inline := i |}.

(** *** [send_entry_alert] *)

(** The local variables read from the payload. *)
Record entry_locals : Type := {
  e_direction : pyval;
  e_entry : float;
  e_stop : float;
  e_tp1 : float;
  e_tp2 : float;
  e_mode : pyval;
  e_time_str : pyval;
  e_day : pyval;
  e_timeframe : pyval
}.

Definition entry_read (data : dict) : res entry_locals :=
  let direction := dict_get data "direction" (PStr "UNKNOWN") in
  entry <- py_float (dict_get data "entry" (PInt 0)) ;;
  stop <- py_float (dict_get data "stop" (PInt 0)) ;;
  tp1 <- py_float (dict_get data "tp1" (PInt 0)) ;;
  tp2 <- py_float (dict_get data "tp2" (PInt 0)) ;;
  let mode := dict_get data "mode" (PStr "") in
  let time_str := dict_get data "time" (PStr "") in
  let day := dict_get data "day" (PStr "") in
  let timeframe := dict_get data "timeframe" (PStr "Unknown") in
  Ok {| e_direction := direction; e_entry := entry; e_stop := stop;
        e_tp1 := tp1; e_tp2 := tp2; e_mode := mode; e_time_str := time_str;
        e_day := day; e_timeframe := timeframe |}.

Definition entry_risk (l : entry_locals) : float :=
  float_abs (float_sub (e_entry l) (e_stop l)).
Definition entry_tp1_dist (l : entry_locals) : float :=
  float_abs (float_sub (e_tp1 l) (e_entry l)).
Definition entry_tp2_dist (l : entry_locals) : float :=
  float_abs (float_sub (e_tp2 l) (e_entry l)).

Definition direction_color (direction : pyval) : Z :=
  if py_eq_str direction "LONG" then GREEN else RED.

Definition direction_emoji (direction : pyval) : string :=
  if py_eq_str direction "LONG" then "🟢" else "🔴".

(** The six fields every entry message has. *)
Definition entry_fields (l : entry_locals) : list field :=
  [ mk_field "📍 Entry" ("**" ++ format_f false true 2 (e_entry l) ++ "**") true;
    mk_field "🛑 Stop Loss"
      (format_f false true 2 (e_stop l) ++ newline
       ++ "(" ++ format_f true false 2 (entry_risk l) ++ " pts)") true;
    mk_field "📊 Risk" ("**" ++ format_f false false 2 (entry_risk l) ++ "** pts") true;
    mk_field "🎯 TP1 (1.3R)"
      (format_f false true 2 (e_tp1 l) ++ newline
       ++ "(" ++ format_f true false 2 (entry_tp1_dist l) ++ " pts)") true;
    mk_field "🎯 TP2 (2.0R)"
      (format_f false true 2 (e_tp2 l) ++ newline
       ++ "(" ++ format_f true false 2 (entry_tp2_dist l) ++ " pts)") true;
    mk_field "⏰ Time" (py_str (e_time_str l) ++ newline ++ py_str (e_day l)) true ].

(** The field added when the payload has the key [mo_bias].  The value
    goes to [add_field] as it is, and [add_field] keeps [str(value)]: the
    embed that is sent holds text, whatever the payload held. *)
Definition midnight_open (data : dict) : res (list field) :=
  if dict_has data "mo_bias" then
    v <- dict_getitem data "mo_bias" ;;
    Ok [ mk_field "🌙 Midnight Open" (py_str v) false ]
  else Ok [].

Definition entry_embed (now : Z) (data : dict) (l : entry_locals) : res embed :=
  mo <- midnight_open data ;;
  Ok {| title := direction_emoji (e_direction l) ++ " " ++ py_str (e_direction l)
                 ++ " ENTRY - " ++ py_str (e_mode l)
                 ++ " [" ++ py_str (e_timeframe l) ++ "]";
        description := None;
        color := direction_color (e_direction l);
        timestamp := now;
        fields := entry_fields l ++ mo;
        footer := Some ("ICT Pro v10 Optimized | " ++ py_str (e_timeframe l)
                        ++ " Chart | Trade at your own risk") |}.

Definition entry_message (now : Z) (data : dict) : res embed :=
  l <- entry_read data ;;
  entry_embed now data l.

(** *** [send_tp1_alert], [send_tp2_alert], [send_sl_alert],
        [send_eod_alert]

    Each reads a direction, a price and one amount. *)
Record exit_locals : Type := {
  x_direction : pyval;
  x_price : float;
  x_amount : float
}.

Definition tp1_read (data : dict) : res exit_locals :=
  let direction := dict_get data "direction" (PStr "UNKNOWN") in
  price <- py_float (dict_get data "price" (PInt 0)) ;;
  profit <- py_float (dict_get data "profit" (PInt 0)) ;;
  Ok {| x_direction := direction; x_price := price; x_amount := profit |}.

Definition tp1_embed (now : Z) (l : exit_locals) : embed :=
  {| title := "✅ TP1 HIT - 50% Closed";
     description := Some ("**" ++ py_str (x_direction l) ++ "** position moved to breakeven");
     color := direction_color (x_direction l);
     timestamp := now;
     fields :=
       [ mk_field "💰 TP1 Price" (format_f false true 2 (x_price l)) true;
         mk_field "📈 Profit" ("+" ++ format_f false false 2 (x_amount l) ++ " pts") true;
         mk_field "🔒 Status" "Breakeven Active" true ];
     footer := Some "Remaining 50% running to TP2" |}.

Definition tp1_message (now : Z) (data : dict) : res embed :=
  l <- tp1_read data ;; Ok (tp1_embed now l).

Definition tp2_read (data : dict) : res exit_locals :=
  let direction := dict_get data "direction" (PStr "UNKNOWN") in
  price <- py_float (dict_get data "price" (PInt 0)) ;;
  profit <- py_float (dict_get data "profit" (PInt 0)) ;;
  Ok {| x_direction := direction; x_price := price; x_amount := profit |}.

Definition tp2_embed (now : Z) (l : exit_locals) : embed :=
  {| title := "🎯 TP2 HIT - Trade Complete";
     description := Some ("**" ++ py_str (x_direction l) ++ "** position fully closed");
     color := GREEN;
     timestamp := now;
     fields :=
       [ mk_field "💰 TP2 Price" (format_f false true 2 (x_price l)) true;
         mk_field "📈 Total Profit" ("+" ++ format_f false false 2 (x_amount l) ++ " pts") true;
         mk_field "✅ Result" "WINNER" true ];
     footer := None |}.

Definition tp2_message (now : Z) (data : dict) : res embed :=
  l <- tp2_read data ;; Ok (tp2_embed now l).

Definition sl_read (data : dict) : res exit_locals :=
  let direction := dict_get data "direction" (PStr "UNKNOWN") in
  price <- py_float (dict_get data "price" (PInt 0)) ;;
  loss <- py_float (dict_get data "loss" (PInt 0)) ;;
  Ok {| x_direction := direction; x_price := price; x_amount := loss |}.

Definition sl_embed (now : Z) (l : exit_locals) : embed :=
  {| title := "🛑 STOP LOSS HIT";
     description := Some ("**" ++ py_str (x_direction l) ++ "** position closed at stop");
     color := RED;
     timestamp := now;
     fields :=
       [ mk_field "💰 Exit Price" (format_f false true 2 (x_price l)) true;
         mk_field "📉 Loss" (format_f false false 2 (x_amount l) ++ " pts") true;
         mk_field "❌ Result" "STOPPED OUT" true ];
     footer := None |}.

Definition sl_message (now : Z) (data : dict) : res embed :=
  l <- sl_read data ;; Ok (sl_embed now l).

Definition eod_read (data : dict) : res exit_locals :=
  let direction := dict_get data "direction" (PStr "UNKNOWN") in
  price <- py_float (dict_get data "price" (PInt 0)) ;;
  pnl <- py_float (dict_get data "pnl" (PInt 0)) ;;
  Ok {| x_direction := direction; x_price := price; x_amount := pnl |}.

Definition eod_color (pnl : float) : Z :=
  if float_gt0 pnl then GREEN else RED.

Definition eod_result (pnl : float) : string :=
  if float_gt0 pnl then "PROFIT" else if float_lt0 pnl then "LOSS" else "BREAKEVEN".

Definition eod_embed (now : Z) (l : exit_locals) : embed :=
  {| title := "🌅 EOD CLOSE (3:00 PM)";
     description := Some ("**" ++ py_str (x_direction l) ++ "** position closed at end of day");
     color := eod_color (x_amount l);
     timestamp := now;
     fields :=
       [ mk_field "💰 Exit Price" (format_f false true 2 (x_price l)) true;
         mk_field "📊 P&L" (format_f true false 2 (x_amount l) ++ " pts") true;
         mk_field "📋 Result" (eod_result (x_amount l)) true ];
     footer := None |}.

Definition eod_message (now : Z) (data : dict) : res embed :=
  l <- eod_read data ;; Ok (eod_embed now l).

Close Scope res_scope.
Open Scope M_scope.

Variable env : environment.

(** Each [send_*_alert] builds its embed and sends it. *)
Definition send_embed (ch : channel) (message : res embed) : M unit :=
  e <- lift message ;; channel_send ch (Embedded e).

Definition send_entry_alert (ch : channel) (data : dict) : M unit :=
  send_embed ch (entry_message (utcnow env) data).
Definition send_tp1_alert (ch : channel) (data : dict) : M unit :=
  send_embed ch (tp1_message (utcnow env) data).
Definition send_tp2_alert (ch : channel) (data : dict) : M unit :=
  send_embed ch (tp2_message (utcnow env) data).
Definition send_sl_alert (ch : channel) (data : dict) : M unit :=
  send_embed ch (sl_message (utcnow env) data).
Definition send_eod_alert (ch : channel) (data : dict) : M unit :=
  send_embed ch (eod_message (utcnow env) data).

(** The generic alert: the payload as [json.dumps] prints it. *)
Definition generic_text (data : pyval) : string :=
  "📢 Alert: " ++ json_dumps 2 data.

(** ** The dispatcher *)

Variable cfg : config.

(** [data.get] exists on a dictionary only: any other JSON value ends
    the coroutine with an [AttributeError] at the first [data.get]. *)
Definition send_alert (data : pyval) : M unit :=
  match get_channel env (DISCORD_CHANNEL_ID cfg) with
  | None => print ("Channel " ++ int_str (DISCORD_CHANNEL_ID cfg) ++ " not found!")
  | Some ch =>
      match data with
      | PDict d =>
          let alert_type := dict_get d "type" (PStr "unknown") in
          if py_eq_str alert_type "entry" then send_entry_alert ch d
          else if py_eq_str alert_type "tp1" then send_tp1_alert ch d
          else if py_eq_str alert_type "tp2" then send_tp2_alert ch d
          else if py_eq_str alert_type "sl" then send_sl_alert ch d
          else if py_eq_str alert_type "eod" then send_eod_alert ch d
          else channel_send ch (Content (generic_text data))
      | _ =>
          lift (Raise (Exn AttributeError
                         ("'" ++ type_name data ++ "' object has no attribute 'get'")))
      end
  end.

(** ** The webhook *)

Record request : Type := {
  (** [request.headers.get('X-Webhook-Secret')] *)
  header_secret : option string;
  (** [request.json]: the parsed body, or the exception of the parser *)
  request_json : res pyval
}.

Record response : Type := {
  body : pyval;
  status : Z
}.

(** [jsonify({key: text})] *)
Definition jsonify1 (key text : string) : pyval := PDict [(key, PStr text)].

Definition secret_ok (req : request) : bool :=
  match header_secret req with
  | Some s => (s =? WEBHOOK_SECRET cfg)%string
  | None => false
  end.

Definition schedule (data : pyval) : M unit :=
  fun w =>
    match create_task_error env with
    | Some e => (Raise e, w)
    | None =>
        (Ok tt, {| stdout := stdout w; tasks := tasks w ++ [data]; outbox := outbox w |})
    end.

(** The body of the [try]. *)
Definition webhook_try (req : request) : M response :=
  data <- lift (request_json req) ;;
  _ <- print ("Received webhook: " ++ json_dumps 2 data) ;;
  _ <- schedule data ;;
  ret {| body := jsonify1 "status" "success"; status := 200 |}.

Definition webhook (req : request) (w : world) : response * world :=
  if negb (secret_ok req) then
    ({| body := jsonify1 "error" "Unauthorized"; status := 401 |}, w)
  else
    match webhook_try req w with
    | (Ok r, w') => (r, w')
    | (Raise e, w') =>
        ({| body := jsonify1 "error" (exn_str e); status := 500 |},
         {| stdout := stdout w' ++ ["Error processing webhook: " ++ exn_str e];
            tasks := tasks w'; outbox := outbox w' |})
    end.

(** ** The bot's loop

    The loop runs each scheduled coroutine; an exception that leaves
    [send_alert] ends that task and reaches no other task. *)
Definition run_task (w : world) : world :=
  match tasks w with
  | [] => w
  | data :: rest =>
      snd (send_alert data {| stdout := stdout w; tasks := rest; outbox := outbox w |})
  end.

Fixpoint run_tasks (n : nat) (w : world) : world :=
  match n with
  | O => w
  | S k => run_tasks k (run_task w)
  end.

(** Run everything that is scheduled. *)
Definition run_pending (w : world) : world := run_tasks (List.length (tasks w)) w.

(** One request from arrival to the end of the work it caused. *)
Definition serve (req : request) (w : world) : response * world :=
  let (r, w') := webhook req w in (r, run_pending w').

End Relay.

(** ** Start-up: the configuration and the remaining handlers

    Lines 18 to 20 of the module read three variables of the process
    environment when it is imported; [run_flask] reads a fourth.  The
    environment is a partial function from names to text;
    [os.getenv(key, default)] is the text when the variable is set and
    the default, [None] if none is given, when it is not. *)

Definition getenv (environ : string -> option string) (key : string)
    (default : pyval) : pyval :=
  match environ key with
  | Some text => PStr text
  | None => default
  end.

(** [int] reads a run of digits in which single underscores may stand
    between digits: the value, the number of digits, and what follows.
    [prev] is the character before. *)
Fixpoint scan_int (prev : ascii) (l : list ascii) (acc digits : Z)
    : option (Z * Z * list ascii) :=
  match l with
  | c :: r =>
      if ord c =? 95 then
        if ord prev =? 95 then None else scan_int c r acc digits
      else if is_digit c then scan_int c r (acc * 10 + (ord c - 48)) (digits + 1)
      else if ord prev =? 95 then None else Some (acc, digits, l)
  | [] => if ord prev =? 95 then None else Some (acc, digits, l)
  end.

(** [int(x)] for a float: the integer part, towards zero. *)
Definition int_of_float (x : float) : res Z :=
  match x with
  | S754_zero _ => Ok 0
  | S754_finite s m e =>
      let v := if 0 <=? e then Zpos m * 2 ^ e else Zpos m / 2 ^ (- e) in
      Ok (if s then - v else v)
  | S754_infinity _ => Raise (Exn OverflowError "cannot convert float infinity to integer")
  | S754_nan => Raise (Exn ValueError "cannot convert float NaN to integer")
  end.

Section Startup.
Context {udb : UnicodeDB}.

(** The interpreter's limit on the digits of an integer numeral
    ([sys.get_int_max_str_digits()]): 0 when there is none, and never
    between 1 and 639. *)
Variable max_str_digits : Z.

(** The message shows at most the first 200 characters of [repr(s)]. *)
Definition invalid_literal (s : string) : exn :=
  Exn ValueError
    ("invalid literal for int() with base 10: "
     ++ concat_map utf8_encode (firstn 200 (utf8_decode (str_repr s)))).

(** [int(s)] for a string: blanks, a sign, the digits, blanks.  The limit
    on the digits is checked before what follows them is looked at. *)
Definition int_of_string (s : string) : res Z :=
  let (neg, r) := read_sign (drop_spaces (numeric_text s)) in
  match r with
  | [] => Raise (invalid_literal s)
  | c :: _ =>
      if ord c =? 95 then Raise (invalid_literal s)
      else
        match scan_int zero r 0 0 with
        | None => Raise (invalid_literal s)
        | Some (v, digits, rest) =>
            if digits =? 0 then Raise (invalid_literal s)
            else if (640 <? digits) && (0 <? max_str_digits) && (max_str_digits <? digits)
            then
              Raise (Exn ValueError
                       ("Exceeds the limit (" ++ int_str max_str_digits
                        ++ " digits) for integer string conversion: value has "
                        ++ int_str digits
                        ++ " digits; use sys.set_int_max_str_digits() to increase the limit"))
            else
              match drop_spaces rest with
              | [] => Ok (if neg then - v else v)
              | _ => Raise (invalid_literal s)
              end
        end
  end.

(** [int(v)] *)
Definition py_int (v : pyval) : res Z :=
  match v with
  | PInt z => Ok z
  | PBool b => Ok (if b then 1 else 0)
  | PFloat x => int_of_float x
  | PStr s => int_of_string s
  | _ =>
      Raise (Exn TypeError
               ("int() argument must be a string, a bytes-like object or a real number, not '"
                ++ type_name v ++ "'"))
  end.

(** The module's configuration, lines 18 to 20: the token is read and
    kept as it is, the channel id goes through [int], the secret has a
    default.  An exception here ends the import, and the program. *)
Definition load_config (environ : string -> option string) : res config :=
  res_bind (py_int (getenv environ "DISCORD_CHANNEL_ID" PNone))
    (fun channel_id =>
       Ok {| DISCORD_CHANNEL_ID := channel_id;
             WEBHOOK_SECRET :=
               match environ "WEBHOOK_SECRET" with
               | Some text => text
               | None => "your-secret-key"
               end |}).

(** [run_flask]: the port the server is started on. *)
Definition flask_port (environ : string -> option string) : res Z :=
  py_int (getenv environ "PORT" (PInt 5000)).

End Startup.

(** [on_ready]: two lines, the first with [str(bot.user)]. *)
Definition on_ready (cfg : config) (bot_user : string) : M unit :=
  bind (print (bot_user ++ " has connected to Discord!"))
    (fun _ => print ("Bot is ready to send alerts to channel: "
                     ++ int_str (DISCORD_CHANNEL_ID cfg))).


(** * Properties *)

(** ** Sample data

    The end-of-day and take-profit examples of the specification.  The
    float [-5.25] is [5910974510923776 * 2^-50] and [4480.0] is
    [4925812092436480 * 2^-40]; [fl] gives the float of any numeral. *)

Definition minus_5_25 : float := S754_finite true 5910974510923776 (-50).
Definition f_4480 : float := S754_finite false 4925812092436480 (-40).

(** The float a numeral denotes, as [float] reads it. *)
Definition fl (numeral : string) : float :=
  match float_of_string (udb := ascii_only_db) numeral with
  | Some x => x
  | None => S754_nan
  end.

Definition eod_example : dict :=
  [ ("type", PStr "eod"); ("direction", PStr "SHORT");
    ("price", PFloat f_4480); ("pnl", PFloat minus_5_25) ].

Definition tp1_negative_example : dict :=
  [ ("type", PStr "tp1"); ("direction", PStr "LONG");
    ("price", PFloat f_4480); ("profit", PFloat minus_5_25) ].

Definition entry_example : dict :=
  [ ("type", PStr "entry"); ("direction", PStr "LONG");
    ("entry", PFloat f_4480); ("stop", PStr "4474.75"); ("tp1", PInt 4487);
    ("tp2", PFloat f_4480); ("mo_bias", PStr "above") ].

(** An entry alert whose [entry] is text that spells no number. *)
Definition entry_with_text : dict :=
  [ ("type", PStr "entry"); ("entry", PStr "abc") ].

(** An entry alert with nothing but its type. *)
Definition bare_entry : dict := [ ("type", PStr "entry") ].

(** Entry alerts whose [mo_bias] is the number 1.5, and [null]. *)
Definition f_1_5 : float := S754_finite false 6755399441055744 (-52).

Definition entry_with_numeric_bias : dict :=
  [ ("type", PStr "entry"); ("mo_bias", PFloat f_1_5) ].

Definition entry_with_null_bias : dict :=
  [ ("type", PStr "entry"); ("mo_bias", PNone) ].

(** Two payloads for the generic alert: one of a type that has no
    formatter, with a list, a boolean and a [null] in it, and one with no
    type at all. *)
Definition custom_example : dict :=
  [ ("type", PStr "custom"); ("symbol", PStr "ES");
    ("levels", PList [PFloat f_4480; PInt 1]); ("ok", PBool true); ("note", PNone) ].

Definition untyped_example : dict :=
  [ ("symbol", PStr "ES"); ("price", PFloat f_4480) ].

(** A channel that accepts every message, found under every id. *)
Definition open_channel : channel := {| send_error := fun _ => None |}.

Definition sample_env : environment :=
  {| get_channel := fun _ => Some open_channel;
     utcnow := 1700000000;
     create_task_error := None |}.

Definition sample_cfg : config :=
  {| DISCORD_CHANNEL_ID := 1234567890; WEBHOOK_SECRET := "your-secret-key" |}.

Definition idle : world := {| stdout := []; tasks := []; outbox := [] |}.

(** ** The vocabulary of the statements *)

(** The first field of an embed with the given name. *)
Fixpoint field_named (n : string) (fs : list field) : option field :=
  match fs with
  | [] => None
  | f :: r => if (name f =? n)%string then Some f else field_named n r
  end.

Definition field_value (e : embed) (n : string) : option pyval :=
  option_map value (field_named n (fields e)).

(** The numeric fields each formatter coerces, in the order it reads
    them; the generic alert reads none. *)
Definition numeric_fields (alert_type : pyval) : list string :=
  if py_eq_str alert_type "entry" then ["entry"; "stop"; "tp1"; "tp2"]
  else if py_eq_str alert_type "tp1" then ["price"; "profit"]
  else if py_eq_str alert_type "tp2" then ["price"; "profit"]
  else if py_eq_str alert_type "sl" then ["price"; "loss"]
  else if py_eq_str alert_type "eod" then ["price"; "pnl"]
  else [].

(** [float(data.get(key, 0))] for each key in turn, stopping at the first
    that raises. *)
Fixpoint coerce_all {udb : UnicodeDB} (d : dict) (keys : list string) : res unit :=
  match keys with
  | [] => Ok tt
  | key :: rest =>
      res_bind (py_float (dict_get d key (PInt 0))) (fun _ => coerce_all d rest)
  end.

(** Two payloads that hold the same value, or both none, under each of
    the keys listed. *)
Definition same_on (keys : list string) (d d' : dict) : Prop :=
  forall key : string, In key keys -> dict_lookup d key = dict_lookup d' key.

(** The keys [send_entry_alert] reads. *)
Definition entry_keys : list string :=
  [ "direction"; "entry"; "stop"; "tp1"; "tp2"; "mode"; "time"; "day";
    "timeframe"; "mo_bias" ].

(** A process environment with the channel id and nothing else. *)
Definition sample_environ (key : string) : option string :=
  if (key =? "DISCORD_CHANNEL_ID")%string then Some "1234567890" else None.

(** The sample entry alert with the values of [entry] and [stop]
    exchanged, and one with a key no formatter reads. *)
Definition entry_example_swapped : dict :=
  [ ("type", PStr "entry"); ("direction", PStr "LONG");
    ("entry", PStr "4474.75"); ("stop", PFloat f_4480); ("tp1", PInt 4487);
    ("tp2", PFloat f_4480); ("mo_bias", PStr "above") ].

Definition entry_example_noted : dict := ("note", PStr "manual") :: entry_example.

(** An environment in which no channel is found, and process
    environments that set [PORT] and [WEBHOOK_SECRET]. *)
Definition lost_env : environment :=
  {| get_channel := fun _ => None; utcnow := 1700000000; create_task_error := None |}.

Definition port_environ (key : string) : option string :=
  if (key =? "PORT")%string then Some "99999" else None.

Definition secret_environ (key : string) : option string :=
  if (key =? "WEBHOOK_SECRET")%string then Some "s3cret"
  else if (key =? "DISCORD_CHANNEL_ID")%string then Some "42" else None.

Definition signed_request (data : pyval) : request :=
  {| header_secret := Some "your-secret-key"; request_json := Ok data |}.

(** [part] occurs in [text]. *)
Definition contains (text part : string) : Prop :=
  exists before after : string, text = before ++ part ++ after.

(** Text of printable ASCII characters other than the double quote and
    the backslash: the text a JSON string shows between its quotes
    unchanged. *)
Definition plain (s : string) : bool :=
  forallb (fun c => (32 <=? ord c) && (ord c <=? 126)
                    && negb (ord c =? 34) && negb (ord c =? 92))
    (list_ascii_of_string s).

(** The classes [float] raises. *)
Definition coercion_class (c : exn_class) : bool :=
  match c with
  | TypeError | ValueError | OverflowError => true
  | _ => false
  end.

(** Case analysis along the dispatcher's chain of comparisons. *)
Ltac split_route :=
  repeat match goal with
         | |- context [if py_eq_str ?v ?s then _ else _] =>
             let E := fresh "E" in destruct (py_eq_str v s) eqn:E
         end.

Example minus_5_25_parsed : fl "-5.25" = minus_5_25.
Proof. vm_compute. reflexivity. Qed.

Example f_4480_parsed : fl "4480.0" = f_4480.
Proof. vm_compute. reflexivity. Qed.

(** ** The built-ins on known values

    Each line is what CPython 3.11 gives for the same input. *)

Example format_thousands : format_f false true 2 (fl "1234567.891") = "1,234,567.89".
Proof. vm_compute. reflexivity. Qed.

Example format_tie_to_even : format_f true false 2 (fl "0.125") = "+0.12".
Proof. vm_compute. reflexivity. Qed.

Example format_tie_to_even_up : format_f false false 2 (fl "0.375") = "0.38".
Proof. vm_compute. reflexivity. Qed.

Example format_binary_value_decides : format_f false false 2 (fl "2.675") = "2.67".
Proof. vm_compute. reflexivity. Qed.

Example format_keeps_sign_of_zero : format_f false false 2 (fl "-0.001") = "-0.00".
Proof. vm_compute. reflexivity. Qed.

Example format_plus_nan : format_f true false 2 (fl "nan") = "+nan".
Proof. vm_compute. reflexivity. Qed.

Example format_inf_no_grouping : format_f false true 2 (fl "-inf") = "-inf".
Proof. vm_compute. reflexivity. Qed.

Example sub_is_rounded :
  float_repr (float_sub (fl "0.3") (fl "0.1")) = "0.19999999999999998".
Proof. vm_compute. reflexivity. Qed.

Example repr_tenth : float_repr (fl "0.1") = "0.1".
Proof. vm_compute. reflexivity. Qed.

Example repr_1e16 : float_repr (fl "1e16") = "1e+16".
Proof. vm_compute. reflexivity. Qed.

Example repr_1e15 : float_repr (fl "1e15") = "1000000000000000.0".
Proof. vm_compute. reflexivity. Qed.

Example repr_small : float_repr (fl "0.00001") = "1e-05".
Proof. vm_compute. reflexivity. Qed.

Example repr_least : float_repr (S754_finite false 1 (-1074)) = "5e-324".
Proof. vm_compute. reflexivity. Qed.

Example repr_tie :
  float_repr (S754_finite false 4503599627370497 (-2)) = "1125899906842624.2".
Proof. vm_compute. reflexivity. Qed.

Example float_of_text :
  float_of_string (udb := ascii_only_db) "abc" = None.
Proof. vm_compute. reflexivity. Qed.

Example float_of_padded :
  float_of_string (udb := ascii_only_db) "  12.5 " = Some (S754_finite false 7036874417766400 (-49)).
Proof. vm_compute. reflexivity. Qed.

Example float_of_underscores :
  float_of_string (udb := ascii_only_db) "1_000.5" = Some (S754_finite false 8800491068719104 (-43)).
Proof. vm_compute. reflexivity. Qed.

Example float_of_double_underscore :
  float_of_string (udb := ascii_only_db) "1__0" = None.
Proof. vm_compute. reflexivity. Qed.

Example float_of_exponent :
  float_of_string (udb := ascii_only_db) "+.5e-3" = Some (S754_finite false 4611686018427388 (-63)).
Proof. vm_compute. reflexivity. Qed.

Example float_of_bare_exponent :
  float_of_string (udb := ascii_only_db) "1e" = None.
Proof. vm_compute. reflexivity. Qed.

Example float_of_huge :
  float_of_string (udb := ascii_only_db) "1e400" = Some (S754_infinity false).
Proof. vm_compute. reflexivity. Qed.

Example float_of_infinity :
  float_of_string (udb := ascii_only_db) "-Infinity" = Some (S754_infinity true).
Proof. vm_compute. reflexivity. Qed.

Example float_of_nan :
  float_of_string (udb := ascii_only_db) "nan" = Some S754_nan.
Proof. vm_compute. reflexivity. Qed.

Example float_of_empty :
  float_of_string (udb := ascii_only_db) "" = None.
Proof. vm_compute. reflexivity. Qed.

Example float_of_int_rounds :
  float_of_int (2 ^ 53 + 1) = Some (S754_finite false 4503599627370496 (1)).
Proof. vm_compute. reflexivity. Qed.

Example float_of_int_overflow :
  float_of_int (2 ^ 1024) = None.
Proof. vm_compute. reflexivity. Qed.

Example float_of_int_largest :
  float_of_int (2 ^ 1024 - 2 ^ 970 - 1) = Some (S754_finite false 9007199254740991 (971)).
Proof. vm_compute. reflexivity. Qed.

Example json_nested :
  json_dumps 2 (PDict [("a", PList [PInt 1; PNone]); ("b", PDict [])])
  = "{" ++ newline
    ++ "  " ++ dquote ++ "a" ++ dquote ++ ": [" ++ newline
    ++ "    1," ++ newline
    ++ "    null" ++ newline
    ++ "  ]," ++ newline
    ++ "  " ++ dquote ++ "b" ++ dquote ++ ": {}" ++ newline
    ++ "}".
Proof. vm_compute. reflexivity. Qed.

Example json_escapes :
  json_dumps 2 (PStr "é🟢")
  = dquote ++ backslash ++ "u00e9" ++ backslash ++ "ud83d" ++ backslash ++ "udfe2" ++ dquote.
Proof. vm_compute. reflexivity. Qed.

Example repr_of_list :
  py_repr (udb := ascii_only_db)
    (PList [PStr "a"; PInt (-1); PFloat (S754_finite false 4503599627370496 (-53));
            PNone; PBool true])
  = "['a', -1, 0.5, None, True]".
Proof. vm_compute. reflexivity. Qed.

Example str_of_text : py_str (udb := ascii_only_db) (PStr "LONG") = "LONG".
Proof. reflexivity. Qed.

Example str_of_null : py_str (udb := ascii_only_db) PNone = "None".
Proof. reflexivity. Qed.

Section Properties.
Context {udb : UnicodeDB}.

(** *** Dictionaries *)

Lemma dict_has_lookup (d : dict) (k : string) :
  dict_has d k = true <-> exists v, dict_lookup d k = Some v.
Proof.
  induction d as [|[k' v'] r IH]; simpl.
  - split; [discriminate | intros [v Hv]; discriminate].
  - destruct (k' =? k)%string.
    + split; [eauto | reflexivity].
    + exact IH.
Qed.

Lemma dict_lookup_missing (d : dict) (k : string) :
  dict_has d k = false -> dict_lookup d k = None.
Proof.
  intros H. destruct (dict_lookup d k) as [v|] eqn:E; [|reflexivity].
  assert (dict_has d k = true) by (apply dict_has_lookup; eauto).
  congruence.
Qed.

Lemma dict_get_missing (d : dict) (k : string) (dflt : pyval) :
  dict_has d k = false -> dict_get d k dflt = dflt.
Proof.
  intros H. unfold dict_get. now rewrite dict_lookup_missing.
Qed.

Lemma py_eq_str_true (v : pyval) (s : string) :
  py_eq_str v s = true <-> v = PStr s.
Proof.
  destruct v; simpl; try (split; [discriminate | intros H; discriminate]).
  rewrite String.eqb_eq. split; [intros -> | intros [= ->]]; reflexivity.
Qed.

Lemma py_eq_str_false (v : pyval) (s : string) :
  py_eq_str v s = false <-> v <> PStr s.
Proof.
  rewrite <- py_eq_str_true. destruct (py_eq_str v s); split; congruence.
Qed.

(** *** Coercion *)

Lemma py_float_zero : py_float (PInt 0) = Ok float_zero.
Proof. reflexivity. Qed.

Lemma py_float_missing (d : dict) (k : string) :
  dict_has d k = false -> py_float (dict_get d k (PInt 0)) = Ok float_zero.
Proof. intros H. now rewrite dict_get_missing. Qed.

Lemma py_float_raise_class (v : pyval) (e : exn) :
  py_float v = Raise e -> coercion_class (exn_class_of e) = true.
Proof.
  destruct v; simpl; intros H; try discriminate;
    try (injection H as <-; reflexivity).
  - destruct (float_of_int z); [discriminate | injection H as <-; reflexivity].
  - destruct (float_of_string s); [discriminate | injection H as <-; reflexivity].
Qed.

(** *** Comparisons with zero *)

Lemma float_gt0_not_lt0 (x : float) : float_gt0 x = true -> float_lt0 x = false.
Proof. destruct x as [s|s| |s m e]; try destruct s; cbv; congruence. Qed.

Lemma float_le0_not_gt0 (x : float) : float_le0 x = true -> float_gt0 x = false.
Proof. destruct x as [s|s| |s m e]; try destruct s; cbv; congruence. Qed.

Lemma float_eq0_neither (x : float) :
  float_eq0 x = true -> float_gt0 x = false /\ float_lt0 x = false.
Proof. destruct x as [s|s| |s m e]; try destruct s; cbv; intuition congruence. Qed.

(** A float below zero is printed with a minus sign when no sign option
    is given. *)
Lemma float_lt0_minus (x : float) (p : nat) :
  float_lt0 x = true -> exists rest : string, format_f false false p x = "-" ++ rest.
Proof.
  destruct x as [s|s| |s m e]; try destruct s;
    unfold float_lt0, SFltb, float_zero; cbn [SFcompare]; try discriminate;
    intros _; eexists; reflexivity.
Qed.

Lemma green_is_not_red : GREEN <> RED.
Proof. discriminate. Qed.

End Properties.

Section Messages.
Context {udb : UnicodeDB}.

(** *** What a send does *)

Lemma channel_send_cases (ch : channel) (msg : outgoing) (w : world) :
  (exists e, send_error ch msg = Some e /\ channel_send ch msg w = (Raise e, w))
  \/ (send_error ch msg = None
      /\ channel_send ch msg w
         = (Ok tt, {| stdout := stdout w; tasks := tasks w; outbox := outbox w ++ [msg] |})).
Proof.
  unfold channel_send. destruct (send_error ch msg) as [e|]; [left|right]; eauto.
Qed.

Lemma send_embed_raise (ch : channel) (e : exn) (w : world) :
  send_embed ch (Raise e) w = (Raise e, w).
Proof. reflexivity. Qed.

Lemma send_embed_ok (ch : channel) (m : embed) (w : world) :
  send_embed ch (Ok m) w = channel_send ch (Embedded m) w.
Proof. reflexivity. Qed.

Lemma channel_send_outbox (ch : channel) (msg : outgoing) (w : world) :
  (List.length (outbox (snd (channel_send ch msg w))) <= List.length (outbox w) + 1)%nat.
Proof.
  destruct (channel_send_cases ch msg w) as [[e [_ ->]]|[_ ->]]; simpl.
  - lia.
  - rewrite length_app. simpl. lia.
Qed.

Lemma send_embed_outbox (ch : channel) (m : res embed) (w : world) :
  (List.length (outbox (snd (send_embed ch m w))) <= List.length (outbox w) + 1)%nat.
Proof.
  destruct m as [m|e].
  - rewrite send_embed_ok. apply channel_send_outbox.
  - rewrite send_embed_raise. simpl. lia.
Qed.

(** *** The optional field *)

Lemma midnight_open_cases (d : dict) :
  (dict_has d "mo_bias" = false /\ midnight_open d = Ok [])
  \/ (exists v, dict_lookup d "mo_bias" = Some v
      /\ midnight_open d
         = Ok [ {| name := "🌙 Midnight Open"; value := PStr (py_str v);
                   inline := false |} ]).
Proof.
  unfold midnight_open, dict_getitem.
  destruct (dict_has d "mo_bias") eqn:H.
  - right. apply dict_has_lookup in H. destruct H as [v Hv].
    exists v. rewrite Hv. split; reflexivity.
  - left. split; reflexivity.
Qed.

(** An entry message is built whenever the four numbers coerce. *)
Lemma entry_read_ok (d : dict) (entry stop tp1 tp2 : float) :
  py_float (dict_get d "entry" (PInt 0)) = Ok entry ->
  py_float (dict_get d "stop" (PInt 0)) = Ok stop ->
  py_float (dict_get d "tp1" (PInt 0)) = Ok tp1 ->
  py_float (dict_get d "tp2" (PInt 0)) = Ok tp2 ->
  entry_read d
  = Ok {| e_direction := dict_get d "direction" (PStr "UNKNOWN");
          e_entry := entry; e_stop := stop; e_tp1 := tp1; e_tp2 := tp2;
          e_mode := dict_get d "mode" (PStr "");
          e_time_str := dict_get d "time" (PStr "");
          e_day := dict_get d "day" (PStr "");
          e_timeframe := dict_get d "timeframe" (PStr "Unknown") |}.
Proof.
  intros H1 H2 H3 H4. unfold entry_read. rewrite H1, H2, H3, H4. reflexivity.
Qed.

Lemma entry_read_inv (d : dict) (l : entry_locals) :
  entry_read d = Ok l ->
  py_float (dict_get d "entry" (PInt 0)) = Ok (e_entry l)
  /\ py_float (dict_get d "stop" (PInt 0)) = Ok (e_stop l)
  /\ py_float (dict_get d "tp1" (PInt 0)) = Ok (e_tp1 l)
  /\ py_float (dict_get d "tp2" (PInt 0)) = Ok (e_tp2 l)
  /\ e_direction l = dict_get d "direction" (PStr "UNKNOWN")
  /\ e_mode l = dict_get d "mode" (PStr "")
  /\ e_time_str l = dict_get d "time" (PStr "")
  /\ e_day l = dict_get d "day" (PStr "")
  /\ e_timeframe l = dict_get d "timeframe" (PStr "Unknown").
Proof.
  unfold entry_read.
  destruct (py_float (dict_get d "entry" (PInt 0))) as [a|]; [|discriminate].
  destruct (py_float (dict_get d "stop" (PInt 0))) as [b|]; [|discriminate].
  destruct (py_float (dict_get d "tp1" (PInt 0))) as [c|]; [|discriminate].
  destruct (py_float (dict_get d "tp2" (PInt 0))) as [e|]; [|discriminate].
  simpl. intros [= <-]. simpl. repeat split; reflexivity.
Qed.

Lemma entry_embed_ok (now : Z) (d : dict) (l : entry_locals) :
  exists mo, midnight_open d = Ok mo
    /\ entry_embed now d l
       = Ok {| title := direction_emoji (e_direction l) ++ " " ++ py_str (e_direction l)
                        ++ " ENTRY - " ++ py_str (e_mode l)
                        ++ " [" ++ py_str (e_timeframe l) ++ "]";
               description := None;
               color := direction_color (e_direction l);
               timestamp := now;
               fields := entry_fields l ++ mo;
               footer := Some ("ICT Pro v10 Optimized | " ++ py_str (e_timeframe l)
                               ++ " Chart | Trade at your own risk") |}.
Proof.
  unfold entry_embed.
  destruct (midnight_open_cases d) as [[_ ->]|[v [_ ->]]]; eexists; split; reflexivity.
Qed.

(** What an entry message that was built is made of. *)
Lemma entry_message_inv (now : Z) (d : dict) (e : embed) :
  entry_message now d = Ok e ->
  exists (l : entry_locals) (mo : list field),
    entry_read d = Ok l
    /\ midnight_open d = Ok mo
    /\ fields e = (entry_fields l ++ mo)%list
    /\ color e = direction_color (e_direction l).
Proof.
  unfold entry_message. intros H.
  destruct (entry_read d) as [l|] eqn:Hl; [|discriminate H].
  change (entry_embed now d l = Ok e) in H.
  destruct (entry_embed_ok now d l) as [mo [Hmo He]]. rewrite He in H.
  injection H as <-. exists l, mo. repeat split; assumption.
Qed.

(** The fixed fields of an entry message, by name. *)
Lemma entry_field_lookup (l : entry_locals) (mo : list field) :
  field_named "🛑 Stop Loss" (entry_fields l ++ mo)
  = Some (mk_field "🛑 Stop Loss"
            (format_f false true 2 (e_stop l) ++ newline
             ++ "(" ++ format_f true false 2 (entry_risk l) ++ " pts)") true)
  /\ field_named "📊 Risk" (entry_fields l ++ mo)
     = Some (mk_field "📊 Risk" ("**" ++ format_f false false 2 (entry_risk l) ++ "** pts") true)
  /\ field_named "🎯 TP1 (1.3R)" (entry_fields l ++ mo)
     = Some (mk_field "🎯 TP1 (1.3R)"
               (format_f false true 2 (e_tp1 l) ++ newline
                ++ "(" ++ format_f true false 2 (entry_tp1_dist l) ++ " pts)") true)
  /\ field_named "🎯 TP2 (2.0R)" (entry_fields l ++ mo)
     = Some (mk_field "🎯 TP2 (2.0R)"
               (format_f false true 2 (e_tp2 l) ++ newline
                ++ "(" ++ format_f true false 2 (entry_tp2_dist l) ++ " pts)") true)
  /\ field_named "🌙 Midnight Open" (entry_fields l ++ mo)
     = field_named "🌙 Midnight Open" mo.
Proof. repeat split. Qed.

End Messages.

(** *** The text of the generic alert *)

Lemma append_assoc (a b c : string) : (a ++ b) ++ c = a ++ b ++ c.
Proof. induction a as [|x a IH]; simpl; [reflexivity | now rewrite IH]. Qed.

Lemma append_nil_r (a : string) : a ++ "" = a.
Proof. induction a as [|x a IH]; simpl; [reflexivity | now rewrite IH]. Qed.

Lemma contains_inside (before after text part : string) :
  contains text part -> contains (before ++ text ++ after) part.
Proof.
  intros [b [a ->]]. exists (before ++ b), (a ++ after).
  now rewrite !append_assoc.
Qed.

(** Each item of a list joined by [","] and [pre] stands after a
    [pre]. *)
Lemma contains_join (pre x : string) (l : list string) :
  In x l -> contains (pre ++ join ("," ++ pre) l) (pre ++ x).
Proof.
  induction l as [|y r IH]; [intros []|].
  intros Hin. destruct r as [|z r].
  - destruct Hin as [->|[]]. exists "", "". cbn [join]. now rewrite append_nil_r.
  - change (join ("," ++ pre) (y :: z :: r))
      with (y ++ ("," ++ pre) ++ join ("," ++ pre) (z :: r)).
    destruct Hin as [->|Hin].
    + exists "", (("," ++ pre) ++ join ("," ++ pre) (z :: r)).
      now rewrite !append_assoc.
    + destruct (IH Hin) as [b [a E]].
      exists (pre ++ y ++ "," ++ b), a.
      rewrite (append_assoc "," pre), E. now rewrite !append_assoc.
Qed.

(** A JSON object is printed with one line for each pair, in the
    payload's order: two spaces, the key, [": "], the value. *)
Lemma json_object_lines (d : dict) (key : string) (v : pyval) :
  In (key, v) d ->
  contains (json_dumps 2 (PDict d))
    (newline ++ "  " ++ json_string key ++ ": " ++ json_encode 2 1 v).
Proof.
  intros Hin. destruct d as [|p r]; [destruct Hin|].
  unfold json_dumps.
  change (json_encode 2 0 (PDict (p :: r)))
    with ("{" ++ (newline ++ "  ")
          ++ join ("," ++ newline ++ "  ")
               (map (fun kv : string * pyval =>
                       let (k, x) := kv in json_string k ++ ": " ++ json_encode 2 1 x)
                  (p :: r))
          ++ newline ++ "}").
  rewrite <- (append_assoc (newline ++ "  ") (join _ _) (newline ++ "}")).
  rewrite <- (append_assoc newline "  " (json_string key ++ ": " ++ json_encode 2 1 v)).
  apply contains_inside, contains_join.
  exact (in_map (fun kv : string * pyval =>
                   let (k, x) := kv in json_string k ++ ": " ++ json_encode 2 1 x)
           (p :: r) (key, v) Hin).
Qed.

Lemma json_object_braces (d : dict) :
  (d = [] -> json_dumps 2 (PDict d) = "{}")
  /\ (d <> [] ->
      exists lines : string,
        json_dumps 2 (PDict d) = "{" ++ newline ++ "  " ++ lines ++ newline ++ "}").
Proof.
  split.
  - intros ->. reflexivity.
  - intros Hd. destruct d as [|p r]; [now destruct Hd|].
    eexists. unfold json_dumps. cbn [json_encode]. reflexivity.
Qed.

Lemma json_escape_plain (c : ascii) :
  ((32 <=? ord c) && (ord c <=? 126) && negb (ord c =? 34) && negb (ord c =? 92)) = true ->
  (ord c <? 128) = true /\ json_escape_char (ord c) = str1 c.
Proof.
  intros H. apply andb_prop in H. destruct H as [H H92].
  apply andb_prop in H. destruct H as [H H34].
  apply andb_prop in H. destruct H as [Hlo Hhi].
  apply negb_true_iff in H34, H92.
  apply Z.leb_le in Hlo, Hhi.
  split; [apply Z.ltb_lt; lia|].
  unfold json_escape_char. rewrite H34, H92.
  repeat match goal with
         | |- context [?a =? ?b] => destruct (Z.eqb_spec a b); [lia|]
         end.
  destruct (Z.leb_spec 32 (ord c)); [|lia].
  destruct (Z.leb_spec (ord c) 126); [|lia].
  cbn [andb]. unfold chr, ord. now rewrite N2Z.id, ascii_N_embedding.
Qed.

(** A plain text stands between the quotes as it is. *)
Lemma json_string_plain (s : string) :
  plain s = true -> json_string s = dquote ++ s ++ dquote.
Proof.
  unfold json_string, utf8_decode, bytes_of, plain. intros H.
  enough (concat_map json_escape_char
            (utf8_decode_bytes (map ord (list_ascii_of_string s))) = s) as ->
    by reflexivity.
  induction s as [|c r IH]; [reflexivity|].
  cbn [list_ascii_of_string forallb map] in H |- *.
  apply andb_prop in H. destruct H as [Hc Hr].
  destruct (json_escape_plain c Hc) as [Hlt He].
  cbn [utf8_decode_bytes]. rewrite Hlt. cbn [concat_map]. rewrite He, (IH Hr).
  reflexivity.
Qed.

Section Claims.
Context {udb : UnicodeDB}.
Variable env : environment.
Variable cfg : config.

(** *** The exit formatters build a message whenever their two numbers
        coerce *)

Lemma tp1_message_ok (now : Z) (d : dict) (price profit : float) :
  py_float (dict_get d "price" (PInt 0)) = Ok price ->
  py_float (dict_get d "profit" (PInt 0)) = Ok profit ->
  tp1_message now d
  = Ok (tp1_embed now {| x_direction := dict_get d "direction" (PStr "UNKNOWN");
                         x_price := price; x_amount := profit |}).
Proof. intros H1 H2. unfold tp1_message, tp1_read. rewrite H1, H2. reflexivity. Qed.

Lemma tp2_message_ok (now : Z) (d : dict) (price profit : float) :
  py_float (dict_get d "price" (PInt 0)) = Ok price ->
  py_float (dict_get d "profit" (PInt 0)) = Ok profit ->
  tp2_message now d
  = Ok (tp2_embed now {| x_direction := dict_get d "direction" (PStr "UNKNOWN");
                         x_price := price; x_amount := profit |}).
Proof. intros H1 H2. unfold tp2_message, tp2_read. rewrite H1, H2. reflexivity. Qed.

Lemma sl_message_ok (now : Z) (d : dict) (price loss : float) :
  py_float (dict_get d "price" (PInt 0)) = Ok price ->
  py_float (dict_get d "loss" (PInt 0)) = Ok loss ->
  sl_message now d
  = Ok (sl_embed now {| x_direction := dict_get d "direction" (PStr "UNKNOWN");
                        x_price := price; x_amount := loss |}).
Proof. intros H1 H2. unfold sl_message, sl_read. rewrite H1, H2. reflexivity. Qed.

Lemma eod_message_ok (now : Z) (d : dict) (price pnl : float) :
  py_float (dict_get d "price" (PInt 0)) = Ok price ->
  py_float (dict_get d "pnl" (PInt 0)) = Ok pnl ->
  eod_message now d
  = Ok (eod_embed now {| x_direction := dict_get d "direction" (PStr "UNKNOWN");
                         x_price := price; x_amount := pnl |}).
Proof. intros H1 H2. unfold eod_message, eod_read. rewrite H1, H2. reflexivity. Qed.

(** Reading the three locals of an exit formatter, whatever the amount's
    key. *)
Lemma exit_read_inv (d : dict) (key : string) (l : exit_locals) :
  res_bind (py_float (dict_get d "price" (PInt 0)))
    (fun price => res_bind (py_float (dict_get d key (PInt 0)))
       (fun amount => Ok {| x_direction := dict_get d "direction" (PStr "UNKNOWN");
                            x_price := price; x_amount := amount |})) = Ok l ->
  x_direction l = dict_get d "direction" (PStr "UNKNOWN")
  /\ py_float (dict_get d "price" (PInt 0)) = Ok (x_price l)
  /\ py_float (dict_get d key (PInt 0)) = Ok (x_amount l).
Proof.
  destruct (py_float (dict_get d "price" (PInt 0))) as [a|]; [|discriminate].
  destruct (py_float (dict_get d key (PInt 0))) as [b|]; [|discriminate].
  simpl. intros [= <-]. repeat split; reflexivity.
Qed.

(** *** The coercions of each formatter *)

Lemma coerce_all_raise_class (d : dict) (keys : list string) (e : exn) :
  coerce_all d keys = Raise e -> coercion_class (exn_class_of e) = true.
Proof.
  induction keys as [|key rest IH]; simpl; [discriminate|].
  destruct (py_float (dict_get d key (PInt 0))) as [x|e'] eqn:H; simpl.
  - exact IH.
  - intros [= <-]. exact (py_float_raise_class _ _ H).
Qed.

(** The coercions fail exactly when one of the fields does not coerce. *)
Lemma coerce_all_raises (d : dict) (keys : list string) :
  raises (coerce_all d keys) = true
  <-> exists key : string,
      In key keys /\ raises (py_float (dict_get d key (PInt 0))) = true.
Proof.
  induction keys as [|key rest IH]; simpl.
  - split; [discriminate | intros [k [[] _]]].
  - destruct (py_float (dict_get d key (PInt 0))) as [x|e'] eqn:H; simpl.
    + rewrite IH. split.
      * intros [k [Hin Hr]]. exists k. auto.
      * intros [k [[<-|Hin] Hr]]; [rewrite H in Hr; discriminate Hr | eauto].
    + split; [|reflexivity].
      intros _. exists key. rewrite H. auto.
Qed.

Lemma entry_read_coercions (d : dict) :
  res_bind (entry_read d) (fun _ => Ok tt)
  = coerce_all d ["entry"; "stop"; "tp1"; "tp2"].
Proof.
  unfold entry_read. simpl coerce_all.
  destruct (py_float (dict_get d "entry" (PInt 0))); simpl; [|reflexivity].
  destruct (py_float (dict_get d "stop" (PInt 0))); simpl; [|reflexivity].
  destruct (py_float (dict_get d "tp1" (PInt 0))); simpl; [|reflexivity].
  destruct (py_float (dict_get d "tp2" (PInt 0))); reflexivity.
Qed.

Lemma exit_read_coercions (d : dict) (key : string) :
  res_bind
    (res_bind (py_float (dict_get d "price" (PInt 0)))
       (fun price => res_bind (py_float (dict_get d key (PInt 0)))
          (fun amount => Ok {| x_direction := dict_get d "direction" (PStr "UNKNOWN");
                               x_price := price; x_amount := amount |})))
    (fun _ => Ok tt)
  = coerce_all d ["price"; key].
Proof.
  simpl coerce_all.
  destruct (py_float (dict_get d "price" (PInt 0))); simpl; [|reflexivity].
  destruct (py_float (dict_get d key (PInt 0))); reflexivity.
Qed.

(** A formatter whose coercions fail builds no message, and one whose
    coercions succeed has read its locals. *)
Lemma read_then_embed {L : Type} (r : res L) (f : L -> res embed) (e : exn) :
  res_bind r (fun _ => Ok tt) = Raise e -> res_bind r f = Raise e.
Proof. destruct r as [a|e']; simpl; intros H; [discriminate H | congruence]. Qed.

Lemma read_ok_then_embed {L : Type} (r : res L) :
  res_bind r (fun _ => Ok tt) = Ok tt -> exists l, r = Ok l.
Proof. destruct r as [a|e']; simpl; intros H; [eauto | discriminate H]. Qed.

(** *** The dispatcher *)

Lemma send_alert_unresolved (data : pyval) (w : world) :
  get_channel env (DISCORD_CHANNEL_ID cfg) = None ->
  send_alert env cfg data w
  = (Ok tt,
     {| stdout := stdout w
                  ++ ["Channel " ++ int_str (DISCORD_CHANNEL_ID cfg) ++ " not found!"];
        tasks := tasks w; outbox := outbox w |}).
Proof. intros H. unfold send_alert. rewrite H. reflexivity. Qed.

(** A payload that is not a dictionary has no [get]. *)
Lemma send_alert_needs_dict (data : pyval) (w : world) (ch : channel) :
  get_channel env (DISCORD_CHANNEL_ID cfg) = Some ch ->
  (forall d, data <> PDict d) ->
  send_alert env cfg data w
  = (Raise (Exn AttributeError ("'" ++ type_name data ++ "' object has no attribute 'get'")),
     w).
Proof.
  intros H Hd. unfold send_alert. rewrite H.
  destruct data; try reflexivity. now destruct (Hd d).
Qed.

Lemma send_alert_coercion_raises (d : dict) (w : world) (ch : channel) (e : exn) :
  get_channel env (DISCORD_CHANNEL_ID cfg) = Some ch ->
  coerce_all d (numeric_fields (dict_get d "type" (PStr "unknown"))) = Raise e ->
  send_alert env cfg (PDict d) w = (Raise e, w).
Proof.
  intros H He. unfold send_alert. rewrite H.
  unfold numeric_fields in He. revert He. split_route; intros He.
  - rewrite <- entry_read_coercions in He.
    unfold send_entry_alert, entry_message. now rewrite (read_then_embed _ _ _ He).
  - rewrite <- exit_read_coercions in He.
    unfold send_tp1_alert, tp1_message. now rewrite (read_then_embed _ _ _ He).
  - rewrite <- exit_read_coercions in He.
    unfold send_tp2_alert, tp2_message. now rewrite (read_then_embed _ _ _ He).
  - rewrite <- exit_read_coercions in He.
    unfold send_sl_alert, sl_message. now rewrite (read_then_embed _ _ _ He).
  - rewrite <- exit_read_coercions in He.
    unfold send_eod_alert, eod_message. now rewrite (read_then_embed _ _ _ He).
  - discriminate He.
Qed.

Lemma send_alert_coercion_ok (d : dict) (w : world) (ch : channel) :
  get_channel env (DISCORD_CHANNEL_ID cfg) = Some ch ->
  coerce_all d (numeric_fields (dict_get d "type" (PStr "unknown"))) = Ok tt ->
  exists msg : outgoing, send_alert env cfg (PDict d) w = channel_send ch msg w.
Proof.
  intros H Hok. unfold send_alert. rewrite H.
  unfold numeric_fields in Hok. revert Hok. split_route; intros Hok.
  - rewrite <- entry_read_coercions in Hok.
    destruct (read_ok_then_embed _ Hok) as [l Hl].
    unfold send_entry_alert, entry_message. rewrite Hl. cbn [res_bind].
    destruct (entry_embed_ok (utcnow env) d l) as [mo [_ ->]].
    rewrite send_embed_ok. eauto.
  - rewrite <- exit_read_coercions in Hok.
    destruct (read_ok_then_embed _ Hok) as [l Hl].
    unfold send_tp1_alert, tp1_message, tp1_read. rewrite Hl.
    eexists. apply send_embed_ok.
  - rewrite <- exit_read_coercions in Hok.
    destruct (read_ok_then_embed _ Hok) as [l Hl].
    unfold send_tp2_alert, tp2_message, tp2_read. rewrite Hl.
    eexists. apply send_embed_ok.
  - rewrite <- exit_read_coercions in Hok.
    destruct (read_ok_then_embed _ Hok) as [l Hl].
    unfold send_sl_alert, sl_message, sl_read. rewrite Hl.
    eexists. apply send_embed_ok.
  - rewrite <- exit_read_coercions in Hok.
    destruct (read_ok_then_embed _ Hok) as [l Hl].
    unfold send_eod_alert, eod_message, eod_read. rewrite Hl.
    eexists. apply send_embed_ok.
  - eauto.
Qed.

(** With the right secret, a body that parses and a loop that takes the
    task, the webhook prints the payload, schedules [send_alert] on it
    and answers 200. *)
Lemma webhook_accepts (req : request) (w : world) (data : pyval) :
  header_secret req = Some (WEBHOOK_SECRET cfg) ->
  request_json req = Ok data ->
  create_task_error env = None ->
  webhook env cfg req w
  = ({| body := PDict [("status", PStr "success")]; status := 200 |},
     {| stdout := stdout w ++ ["Received webhook: " ++ json_dumps 2 data];
        tasks := tasks w ++ [data]; outbox := outbox w |}).
Proof.
  intros Hs Hj Hc. unfold webhook, secret_ok. rewrite Hs, String.eqb_refl. simpl.
  unfold webhook_try, bind, lift, schedule, print, ret. rewrite Hj, Hc. reflexivity.
Qed.

(** C1, as amended.  [send_alert] can raise: neither it nor a formatter
    has a handler, so a failed numeric coercion is not handled inside the
    dispatch path.  When the channel is found and one of the numbers read
    by the formatter that [type] selects does not coerce, the
    [TypeError], [ValueError] or [OverflowError] of the first such
    [float] leaves [send_alert], which until then has printed nothing and
    sent nothing.  When every such number coerces, [send_alert] is one
    [channel.send] of one message and returns normally if the channel
    accepts it; so on a channel that accepts everything it raises exactly
    when one of those fields does not coerce.  When the channel is not
    found it prints the line [Channel <id> not found!], sends nothing and
    returns. *)
Theorem send_alert_raises_when_coercion_fails (d : dict) (w : world) :
  let keys := numeric_fields (dict_get d "type" (PStr "unknown")) in
  (get_channel env (DISCORD_CHANNEL_ID cfg) = None ->
   send_alert env cfg (PDict d) w
   = (Ok tt,
      {| stdout := stdout w
                   ++ ["Channel " ++ int_str (DISCORD_CHANNEL_ID cfg) ++ " not found!"];
         tasks := tasks w; outbox := outbox w |}))
  /\ (forall ch : channel,
        get_channel env (DISCORD_CHANNEL_ID cfg) = Some ch ->
        (forall e : exn,
            coerce_all d keys = Raise e ->
            send_alert env cfg (PDict d) w = (Raise e, w)
            /\ raises (fst (send_alert env cfg (PDict d) w)) = true
            /\ coercion_class (exn_class_of e) = true)
        /\ (coerce_all d keys = Ok tt ->
            exists msg : outgoing,
              send_alert env cfg (PDict d) w = channel_send ch msg w
              /\ (send_error ch msg = None ->
                  send_alert env cfg (PDict d) w
                  = (Ok tt, {| stdout := stdout w; tasks := tasks w;
                               outbox := outbox w ++ [msg] |})))
        /\ ((forall msg : outgoing, send_error ch msg = None) ->
            (raises (fst (send_alert env cfg (PDict d) w)) = true
             <-> exists key : string,
                 In key keys
                 /\ raises (py_float (dict_get d key (PInt 0))) = true))).
Proof.
  intros keys. split.
  - intros H. exact (send_alert_unresolved _ _ H).
  - intros ch H. split; [|split].
    + intros e He. rewrite (send_alert_coercion_raises d w ch e H He).
      split; [reflexivity|]. split; [reflexivity|].
      exact (coerce_all_raise_class _ _ _ He).
    + intros Hok. destruct (send_alert_coercion_ok d w ch H Hok) as [msg Hm].
      exists msg. split; [exact Hm|].
      intros Hacc. rewrite Hm. unfold channel_send. now rewrite Hacc.
    + intros Hacc. rewrite <- coerce_all_raises. fold keys.
      destruct (coerce_all d keys) as [[]|e] eqn:Hc.
      * destruct (send_alert_coercion_ok d w ch H Hc) as [msg Hm].
        rewrite Hm. unfold channel_send. rewrite Hacc. simpl. tauto.
      * rewrite (send_alert_coercion_raises d w ch e H Hc). simpl. tauto.
Qed.

(** C2.  Once the channel is found, [send_alert] reads [type], taking
    ["unknown"] when the key is absent, and does what exactly one
    formatter does: the entry, tp1, tp2, sl or eod formatter for those
    five values, and for every other value the generic one, which sends
    the text ["📢 Alert: "] followed by [json.dumps(data, indent=2)] of
    the whole payload.  That text is ["{}"] for an empty payload and
    otherwise stands between ["{"] and ["}"] with every pair of the
    payload on a line of its own: two spaces, the key as a JSON string,
    [": "], the value in JSON; a key and a string value of plain text
    stand between double quotes as they are, an integer in decimal.  At
    most one message reaches the channel. *)
Theorem send_alert_routes (d : dict) (w : world) (ch : channel) :
  get_channel env (DISCORD_CHANNEL_ID cfg) = Some ch ->
  let alert_type := dict_get d "type" (PStr "unknown") in
  let run := send_alert env cfg (PDict d) w in
  let body := json_dumps 2 (PDict d) in
  (dict_has d "type" = false -> alert_type = PStr "unknown")
  /\ (alert_type = PStr "entry" -> run = send_entry_alert env ch d w)
  /\ (alert_type = PStr "tp1" -> run = send_tp1_alert env ch d w)
  /\ (alert_type = PStr "tp2" -> run = send_tp2_alert env ch d w)
  /\ (alert_type = PStr "sl" -> run = send_sl_alert env ch d w)
  /\ (alert_type = PStr "eod" -> run = send_eod_alert env ch d w)
  /\ (alert_type <> PStr "entry" -> alert_type <> PStr "tp1" ->
      alert_type <> PStr "tp2" -> alert_type <> PStr "sl" ->
      alert_type <> PStr "eod" ->
      run = channel_send ch (Content ("📢 Alert: " ++ body)) w)
  /\ (d = [] -> body = "{}")
  /\ (d <> [] ->
      exists lines : string, body = "{" ++ newline ++ "  " ++ lines ++ newline ++ "}")
  /\ (forall (key : string) (v : pyval),
         In (key, v) d ->
         contains body (newline ++ "  " ++ json_string key ++ ": " ++ json_encode 2 1 v))
  /\ (forall key s : string,
         In (key, PStr s) d -> plain key = true -> plain s = true ->
         contains body
           (newline ++ "  " ++ dquote ++ key ++ dquote ++ ": " ++ dquote ++ s ++ dquote))
  /\ (forall (key : string) (z : Z),
         In (key, PInt z) d -> plain key = true ->
         contains body (newline ++ "  " ++ dquote ++ key ++ dquote ++ ": " ++ int_str z))
  /\ (List.length (outbox (snd run)) <= List.length (outbox w) + 1)%nat.
Proof.
  intros H alert_type run body. subst run. unfold send_alert. rewrite H.
  fold alert_type.
  repeat apply conj.
  - intros Hm. unfold alert_type. now apply dict_get_missing.
  - intros ->. reflexivity.
  - intros ->. reflexivity.
  - intros ->. reflexivity.
  - intros ->. reflexivity.
  - intros ->. reflexivity.
  - intros H1 H2 H3 H4 H5.
    apply py_eq_str_false in H1, H2, H3, H4, H5.
    rewrite H1, H2, H3, H4, H5. reflexivity.
  - apply json_object_braces.
  - apply json_object_braces.
  - intros key v Hin. exact (json_object_lines d key v Hin).
  - intros key s Hin Hk Hs.
    pose proof (json_object_lines d key (PStr s) Hin) as C.
    cbn [json_encode] in C.
    rewrite (json_string_plain key Hk), (json_string_plain s Hs) in C.
    rewrite !append_assoc in C. exact C.
  - intros key z Hin Hk.
    pose proof (json_object_lines d key (PInt z) Hin) as C.
    cbn [json_encode] in C.
    rewrite (json_string_plain key Hk) in C.
    rewrite !append_assoc in C. exact C.
  - split_route;
      first [ apply send_embed_outbox | apply channel_send_outbox ].
Qed.

(** *** The formatters *)

(** C3.  For an entry payload whose four numbers coerce, the message
    exists and its Stop Loss, Risk, TP1 and TP2 fields show
    [|entry - stop|], [|tp1 - entry|] and [|tp2 - entry|], computed in
    binary64 and printed with two decimals: signed after the stop and the
    targets, unsigned in the Risk field. *)
Theorem entry_distances_rendered (now : Z) (d : dict) (entry stop tp1 tp2 : float) :
  py_float (dict_get d "entry" (PInt 0)) = Ok entry ->
  py_float (dict_get d "stop" (PInt 0)) = Ok stop ->
  py_float (dict_get d "tp1" (PInt 0)) = Ok tp1 ->
  py_float (dict_get d "tp2" (PInt 0)) = Ok tp2 ->
  let risk := float_abs (float_sub entry stop) in
  let tp1_dist := float_abs (float_sub tp1 entry) in
  let tp2_dist := float_abs (float_sub tp2 entry) in
  exists e : embed,
    entry_message now d = Ok e
    /\ field_value e "🛑 Stop Loss"
       = Some (PStr (format_f false true 2 stop ++ newline
                     ++ "(" ++ format_f true false 2 risk ++ " pts)"))
    /\ field_value e "📊 Risk"
       = Some (PStr ("**" ++ format_f false false 2 risk ++ "** pts"))
    /\ field_value e "🎯 TP1 (1.3R)"
       = Some (PStr (format_f false true 2 tp1 ++ newline
                     ++ "(" ++ format_f true false 2 tp1_dist ++ " pts)"))
    /\ field_value e "🎯 TP2 (2.0R)"
       = Some (PStr (format_f false true 2 tp2 ++ newline
                     ++ "(" ++ format_f true false 2 tp2_dist ++ " pts)")).
Proof.
  intros H1 H2 H3 H4 risk tp1_dist tp2_dist.
  unfold entry_message. rewrite (entry_read_ok d entry stop tp1 tp2 H1 H2 H3 H4).
  simpl res_bind.
  match goal with |- context [entry_embed now d ?l] =>
    destruct (entry_embed_ok now d l) as [mo [_ ->]];
    destruct (entry_field_lookup l mo) as [F1 [F2 [F3 [F4 _]]]]
  end.
  eexists. split; [reflexivity|].
  unfold field_value. cbn [fields].
  rewrite F1, F2, F3, F4. repeat split.
Qed.

(** C4, as amended.  For an eod payload whose two numbers coerce, the
    message exists; its Result field is PROFIT when [pnl > 0], LOSS when
    [pnl < 0] and BREAKEVEN when [pnl == 0]; its colour is green when
    [pnl > 0] and red otherwise, so red with BREAKEVEN; and its P&L field
    is the signed two-decimal [pnl] followed by [" pts"].  With
    [pnl = -5.25]: LOSS, red, and the P&L text ["-5.25 pts"]. *)
Theorem eod_result_color_and_pnl (now : Z) (d : dict) (price pnl : float) :
  py_float (dict_get d "price" (PInt 0)) = Ok price ->
  py_float (dict_get d "pnl" (PInt 0)) = Ok pnl ->
  exists e : embed,
    eod_message now d = Ok e
    /\ (float_gt0 pnl = true ->
        field_value e "📋 Result" = Some (PStr "PROFIT") /\ color e = GREEN)
    /\ (float_lt0 pnl = true ->
        field_value e "📋 Result" = Some (PStr "LOSS") /\ color e = RED)
    /\ (float_eq0 pnl = true ->
        field_value e "📋 Result" = Some (PStr "BREAKEVEN") /\ color e = RED)
    /\ (float_gt0 pnl = false -> color e = RED)
    /\ field_value e "📊 P&L" = Some (PStr (format_f true false 2 pnl ++ " pts"))
    /\ (pnl = minus_5_25 ->
        field_value e "📋 Result" = Some (PStr "LOSS")
        /\ color e = RED
        /\ field_value e "📊 P&L" = Some (PStr "-5.25 pts")).
Proof.
  intros H1 H2. rewrite (eod_message_ok now d price pnl H1 H2).
  eexists. split; [reflexivity|].
  unfold field_value, eod_embed, eod_color, eod_result. cbn [fields color x_amount].
  repeat apply conj.
  - intros H. rewrite H. split; reflexivity.
  - intros H. destruct (float_gt0 pnl) eqn:G.
    + apply float_gt0_not_lt0 in G. congruence.
    + rewrite H. split; reflexivity.
  - intros H. destruct (float_eq0_neither pnl H) as [-> ->]. split; reflexivity.
  - intros ->. reflexivity.
  - reflexivity.
  - intros ->. repeat split.
Qed.

(** C5.  An entry message is green exactly when the direction read from
    the payload is the string ["LONG"], and red for any other value; an
    eod message is green exactly when [pnl > 0], and red when
    [pnl <= 0]. *)
Theorem color_selection (now : Z) (d : dict) (e : embed) :
  (entry_message now d = Ok e ->
   let direction := dict_get d "direction" (PStr "UNKNOWN") in
   (color e = GREEN <-> direction = PStr "LONG")
   /\ (direction <> PStr "LONG" -> color e = RED))
  /\ (eod_message now d = Ok e ->
      forall pnl : float,
        py_float (dict_get d "pnl" (PInt 0)) = Ok pnl ->
        (color e = GREEN <-> float_gt0 pnl = true)
        /\ (float_le0 pnl = true -> color e = RED)).
Proof.
  split.
  - intros H.
    destruct (entry_message_inv now d e H) as [l [mo [Hl [_ [_ Hc]]]]].
    cbv zeta. rewrite Hc.
    destruct (entry_read_inv d l Hl) as [_ [_ [_ [_ [Hd _]]]]]. rewrite Hd.
    unfold direction_color.
    destruct (py_eq_str (dict_get d "direction" (PStr "UNKNOWN")) "LONG") eqn:E.
    + apply py_eq_str_true in E. split; [tauto | congruence].
    + apply py_eq_str_false in E. split; [|reflexivity].
      split; [intros G; now destruct green_is_not_red | congruence].
  - unfold eod_message, eod_read. intros H pnl Hp. rewrite Hp in H.
    destruct (py_float (dict_get d "price" (PInt 0))) as [price|]; [|discriminate H].
    simpl in H. injection H as <-. simpl color. unfold eod_color.
    destruct (float_gt0 pnl) eqn:G.
    + split; [tauto|]. intros L. apply float_le0_not_gt0 in L. congruence.
    + split; [|reflexivity].
      split; [intros R; now destruct green_is_not_red | discriminate].
Qed.

(** C6.  A request whose [X-Webhook-Secret] header is missing or differs
    from the configured secret is answered 401 with the body
    [{"error": "Unauthorized"}]; nothing is printed, no [send_alert] is
    scheduled, and so no message is sent on its account. *)
Theorem webhook_rejects_bad_secret (req : request) (w : world) :
  header_secret req <> Some (WEBHOOK_SECRET cfg) ->
  webhook env cfg req w
  = ({| body := PDict [("error", PStr "Unauthorized")]; status := 401 |}, w)
  /\ (tasks w = [] -> snd (serve env cfg req w) = w).
Proof.
  intros H.
  assert (secret_ok cfg req = false) as Hs.
  { unfold secret_ok. destruct (header_secret req) as [s|]; [|reflexivity].
    apply String.eqb_neq. congruence. }
  assert (webhook env cfg req w
          = ({| body := PDict [("error", PStr "Unauthorized")]; status := 401 |}, w)) as Hw.
  { unfold webhook. rewrite Hs. reflexivity. }
  split; [exact Hw|].
  intros Ht. unfold serve. rewrite Hw. unfold run_pending. rewrite Ht. reflexivity.
Qed.

(** C7.  A request with the right secret whose body does not parse,
    [request.json] raising [e], is answered 500 with the body
    [{"error": str(e)}]; the error is printed, no [send_alert] is
    scheduled, and so no message is sent on its account. *)
Theorem webhook_parse_failure (req : request) (w : world) (e : exn) :
  header_secret req = Some (WEBHOOK_SECRET cfg) ->
  request_json req = Raise e ->
  let w' := {| stdout := stdout w ++ ["Error processing webhook: " ++ exn_str e];
               tasks := tasks w; outbox := outbox w |} in
  webhook env cfg req w
  = ({| body := PDict [("error", PStr (exn_str e))]; status := 500 |}, w')
  /\ (tasks w = [] -> snd (serve env cfg req w) = w').
Proof.
  intros Hs Hj w'.
  assert (webhook env cfg req w
          = ({| body := PDict [("error", PStr (exn_str e))]; status := 500 |}, w')) as Hw.
  { unfold webhook, secret_ok. rewrite Hs, String.eqb_refl. simpl.
    unfold webhook_try, bind, lift. rewrite Hj. reflexivity. }
  split; [exact Hw|].
  intros Ht. unfold serve. rewrite Hw. unfold run_pending. subst w'. simpl.
  rewrite Ht. reflexivity.
Qed.

(** C8, as amended.  A numeric field that is missing is read as [0] and
    coerced to [0.0].  A missing direction reads as ["UNKNOWN"] in every
    formatter; in the entry formatter a missing mode, time or day reads
    as the empty string and a missing timeframe as ["Unknown"]. *)
Theorem missing_fields_default (d : dict) :
  (forall key : string,
      dict_has d key = false -> py_float (dict_get d key (PInt 0)) = Ok float_zero)
  /\ (forall l : entry_locals,
        entry_read d = Ok l ->
        (dict_has d "direction" = false -> e_direction l = PStr "UNKNOWN")
        /\ (dict_has d "entry" = false -> e_entry l = float_zero)
        /\ (dict_has d "stop" = false -> e_stop l = float_zero)
        /\ (dict_has d "tp1" = false -> e_tp1 l = float_zero)
        /\ (dict_has d "tp2" = false -> e_tp2 l = float_zero)
        /\ (dict_has d "mode" = false -> e_mode l = PStr "")
        /\ (dict_has d "time" = false -> e_time_str l = PStr "")
        /\ (dict_has d "day" = false -> e_day l = PStr "")
        /\ (dict_has d "timeframe" = false -> e_timeframe l = PStr "Unknown"))
  /\ (forall (l : exit_locals) (amount : string),
        (tp1_read d = Ok l /\ amount = "profit")
        \/ (tp2_read d = Ok l /\ amount = "profit")
        \/ (sl_read d = Ok l /\ amount = "loss")
        \/ (eod_read d = Ok l /\ amount = "pnl") ->
        (dict_has d "direction" = false -> x_direction l = PStr "UNKNOWN")
        /\ (dict_has d "price" = false -> x_price l = float_zero)
        /\ (dict_has d amount = false -> x_amount l = float_zero)).
Proof.
  split; [|split].
  - intros key. apply py_float_missing.
  - intros l Hl.
    destruct (entry_read_inv d l Hl)
      as [H1 [H2 [H3 [H4 [H5 [H6 [H7 [H8 H9]]]]]]]].
    repeat split; intros Hm.
    + rewrite H5. now apply dict_get_missing.
    + rewrite (py_float_missing d _ Hm) in H1. congruence.
    + rewrite (py_float_missing d _ Hm) in H2. congruence.
    + rewrite (py_float_missing d _ Hm) in H3. congruence.
    + rewrite (py_float_missing d _ Hm) in H4. congruence.
    + rewrite H6. now apply dict_get_missing.
    + rewrite H7. now apply dict_get_missing.
    + rewrite H8. now apply dict_get_missing.
    + rewrite H9. now apply dict_get_missing.
  - intros l amount H.
    assert (x_direction l = dict_get d "direction" (PStr "UNKNOWN")
            /\ py_float (dict_get d "price" (PInt 0)) = Ok (x_price l)
            /\ py_float (dict_get d amount (PInt 0)) = Ok (x_amount l)) as [H1 [H2 H3]].
    { destruct H as [[H ->]|[[H ->]|[[H ->]|[H ->]]]];
        exact (exit_read_inv d _ l H). }
    repeat split; intros Hm.
    + rewrite H1. now apply dict_get_missing.
    + rewrite (py_float_missing d _ Hm) in H2. congruence.
    + rewrite (py_float_missing d _ Hm) in H3. congruence.
Qed.

(** C9, as amended.  An entry message has a field named "Midnight Open"
    (with its moon) if and only if the payload has the key [mo_bias], and
    then the field's value is the text [str] gives for the payload's
    value under that key: the value itself when it is a string, and
    otherwise its Python text, ["None"] for [null], ["True"] and
    ["False"] for the booleans, the decimal numeral for an integer, the
    [repr] for a float. *)
Theorem midnight_open_iff_mo_bias (now : Z) (d : dict) (e : embed) :
  entry_message now d = Ok e ->
  (dict_has d "mo_bias" = true
   <-> exists f : field, In f (fields e) /\ name f = "🌙 Midnight Open")
  /\ (forall v : pyval,
        dict_lookup d "mo_bias" = Some v ->
        field_value e "🌙 Midnight Open" = Some (PStr (py_str v)))
  /\ (forall s : string,
        dict_lookup d "mo_bias" = Some (PStr s) ->
        field_value e "🌙 Midnight Open" = Some (PStr s))
  /\ (dict_lookup d "mo_bias" = Some PNone ->
      field_value e "🌙 Midnight Open" = Some (PStr "None"))
  /\ (forall b : bool,
        dict_lookup d "mo_bias" = Some (PBool b) ->
        field_value e "🌙 Midnight Open" = Some (PStr (if b then "True" else "False")))
  /\ (forall z : Z,
        dict_lookup d "mo_bias" = Some (PInt z) ->
        field_value e "🌙 Midnight Open" = Some (PStr (int_str z)))
  /\ (forall x : float,
        dict_lookup d "mo_bias" = Some (PFloat x) ->
        field_value e "🌙 Midnight Open" = Some (PStr (float_repr x))).
Proof.
  intros H.
  destruct (entry_message_inv now d e H) as [l [mo [Hl [Hmo [Hf _]]]]].
  unfold field_value. rewrite Hf.
  destruct (entry_field_lookup l mo) as [_ [_ [_ [_ F]]]]. rewrite F.
  destruct (midnight_open_cases d) as [[Hno Hnil]|[v [Hv Hone]]].
  - rewrite Hnil in Hmo. injection Hmo as <-. rewrite app_nil_r.
    rewrite (dict_lookup_missing d _ Hno). split.
    + split; [congruence|].
      intros [f [Hin Hname]]. exfalso.
      unfold entry_fields in Hin. simpl in Hin.
      repeat (destruct Hin as [<-|Hin]; [discriminate Hname|]). exact Hin.
    + repeat split; intros; discriminate.
  - rewrite Hone in Hmo. injection Hmo as <-. rewrite Hv. split.
    + split.
      * intros _. eexists. split; [apply in_or_app; right; left; reflexivity|].
        reflexivity.
      * intros _. apply dict_has_lookup. eauto.
    + repeat split; intros; match goal with E : Some _ = Some _ |- _ =>
        injection E as ->; try destruct b; reflexivity end.
Qed.

(** C10.  For a tp1 and a tp2 payload whose two numbers coerce, the
    Profit and Total Profit text is ["+"], the profit with two decimals
    and no sign option, then [" pts"]; a negative profit therefore reads
    ["+-..."], and a profit of [-5.25] reads ["+-5.25 pts"], not
    ["-5.25 pts"]. *)
Theorem profit_text_forces_plus (now : Z) (d : dict) (price profit : float) :
  py_float (dict_get d "price" (PInt 0)) = Ok price ->
  py_float (dict_get d "profit" (PInt 0)) = Ok profit ->
  let text := "+" ++ format_f false false 2 profit ++ " pts" in
  (exists e : embed,
      tp1_message now d = Ok e /\ field_value e "📈 Profit" = Some (PStr text))
  /\ (exists e : embed,
        tp2_message now d = Ok e /\ field_value e "📈 Total Profit" = Some (PStr text))
  /\ (float_lt0 profit = true -> exists rest : string, text = "+-" ++ rest)
  /\ (profit = minus_5_25 -> text = "+-5.25 pts" /\ text <> "-5.25 pts").
Proof.
  intros H1 H2 text. split; [|split; [|split]].
  - rewrite (tp1_message_ok now d price profit H1 H2). eexists. split; reflexivity.
  - rewrite (tp2_message_ok now d price profit H1 H2). eexists. split; reflexivity.
  - intros Hlt. destruct (float_lt0_minus profit 2 Hlt) as [rest Hr].
    exists (rest ++ " pts"). subst text. rewrite Hr. reflexivity.
  - intros ->. subst text. split; [reflexivity | discriminate].
Qed.

End Claims.

(** ** The claims at concrete payloads

    Everything below runs the model on the sample data, in the database
    [ascii_only_db], with the channel found and accepting. *)

(** C1, counterexample.  The entry payload [{"type": "entry", "entry":
    "abc"}] makes [send_alert] raise: the [ValueError] of [float("abc")]
    comes out of the dispatcher, which has printed nothing and sent
    nothing. *)
Lemma send_alert_raises_on_text_in_entry :
  send_alert (udb := ascii_only_db) sample_env sample_cfg (PDict entry_with_text) idle
  = (Raise (Exn ValueError "could not convert string to float: 'abc'"), idle)
  /\ raises (fst (send_alert (udb := ascii_only_db) sample_env sample_cfg
                    (PDict entry_with_text) idle)) = true.
Proof. split; vm_compute; reflexivity. Qed.

(** C1 at the samples: the text [abc] in [entry] raises out of
    [send_alert]; the well-formed entry payload is sent; with no channel
    the not-found line is printed. *)
Lemma send_alert_raises_when_coercion_fails_witness :
  (send_alert (udb := ascii_only_db) sample_env sample_cfg (PDict entry_with_text) idle
   = (Raise (Exn ValueError "could not convert string to float: 'abc'"), idle)
   /\ coercion_class ValueError = true)
  /\ (exists msg : outgoing,
        send_alert (udb := ascii_only_db) sample_env sample_cfg (PDict entry_example) idle
        = (Ok tt, {| stdout := []; tasks := []; outbox := [msg] |}))
  /\ send_alert (udb := ascii_only_db) lost_env sample_cfg (PDict entry_with_text) idle
     = (Ok tt, {| stdout := ["Channel 1234567890 not found!"];
                  tasks := []; outbox := [] |}).
Proof.
  split; [|split].
  - destruct (send_alert_raises_when_coercion_fails (udb := ascii_only_db)
                sample_env sample_cfg entry_with_text idle) as [_ H].
    destruct (H open_channel eq_refl) as [H1 _].
    destruct (H1 (Exn ValueError "could not convert string to float: 'abc'"))
      as [Ha [_ Hb]]; [vm_compute; reflexivity|].
    split; [exact Ha | exact Hb].
  - destruct (send_alert_raises_when_coercion_fails (udb := ascii_only_db)
                sample_env sample_cfg entry_example idle) as [_ H].
    destruct (H open_channel eq_refl) as [_ H2].
    destruct H2 as [H2 _].
    destruct H2 as [msg [_ Hsent]]; [vm_compute; reflexivity|].
    exists msg. apply Hsent. reflexivity.
  - destruct (send_alert_raises_when_coercion_fails (udb := ascii_only_db)
                lost_env sample_cfg entry_with_text idle) as [H _].
    apply H. reflexivity.
Defined.

(** C2 at the sample entry payload, at a payload of a type that has no
    formatter, and at one with no type: the last two are sent as the
    text that [json.dumps] prints. *)
Lemma send_alert_routes_witness :
  send_alert (udb := ascii_only_db) sample_env sample_cfg (PDict entry_example) idle
  = send_entry_alert (udb := ascii_only_db) sample_env open_channel entry_example idle
  /\ send_alert (udb := ascii_only_db) sample_env sample_cfg (PDict custom_example) idle
     = (Ok tt,
        {| stdout := []; tasks := [];
           outbox :=
             [Content
                ("📢 Alert: " ++ "{"
                   ++ newline ++ "  " ++ dquote ++ "type" ++ dquote ++ ": " ++ dquote ++ "custom" ++ dquote ++ ","
                   ++ newline ++ "  " ++ dquote ++ "symbol" ++ dquote ++ ": " ++ dquote ++ "ES" ++ dquote ++ ","
                   ++ newline ++ "  " ++ dquote ++ "levels" ++ dquote ++ ": ["
                   ++ newline ++ "    4480.0,"
                   ++ newline ++ "    1"
                   ++ newline ++ "  ],"
                   ++ newline ++ "  " ++ dquote ++ "ok" ++ dquote ++ ": true,"
                   ++ newline ++ "  " ++ dquote ++ "note" ++ dquote ++ ": null"
                   ++ newline ++ "}")] |})
  /\ send_alert (udb := ascii_only_db) sample_env sample_cfg (PDict untyped_example) idle
     = (Ok tt,
        {| stdout := []; tasks := [];
           outbox :=
             [Content
                ("📢 Alert: " ++ "{"
                   ++ newline ++ "  " ++ dquote ++ "symbol" ++ dquote ++ ": " ++ dquote ++ "ES" ++ dquote ++ ","
                   ++ newline ++ "  " ++ dquote ++ "price" ++ dquote ++ ": 4480.0"
                   ++ newline ++ "}")] |})
  /\ contains (json_dumps 2 (PDict untyped_example))
       (newline ++ "  " ++ dquote ++ "symbol" ++ dquote ++ ": " ++ dquote ++ "ES" ++ dquote).
Proof.
  split; [|split; [|split]].
  - apply (send_alert_routes (udb := ascii_only_db) sample_env sample_cfg
             entry_example idle open_channel eq_refl).
    reflexivity.
  - destruct (send_alert_routes (udb := ascii_only_db) sample_env sample_cfg
                custom_example idle open_channel eq_refl)
      as [_ [_ [_ [_ [_ [_ [Hg _]]]]]]].
    rewrite Hg by (vm_compute; discriminate).
    vm_compute. reflexivity.
  - destruct (send_alert_routes (udb := ascii_only_db) sample_env sample_cfg
                untyped_example idle open_channel eq_refl)
      as [Hu [_ [_ [_ [_ [_ [Hg _]]]]]]].
    rewrite Hg by (rewrite (Hu eq_refl); discriminate).
    vm_compute. reflexivity.
  - destruct (send_alert_routes (udb := ascii_only_db) sample_env sample_cfg
                untyped_example idle open_channel eq_refl)
      as [_ [_ [_ [_ [_ [_ [_ [_ [_ [_ [Hs _]]]]]]]]]]].
    apply (Hs "symbol" "ES"); [left; reflexivity | reflexivity | reflexivity].
Defined.

(** C3 at the sample entry payload: entry 4480.0, stop [4474.75] given as
    text, risk 5.25. *)
Lemma entry_distances_rendered_witness :
  exists e : embed,
    entry_message (udb := ascii_only_db) 1700000000 entry_example = Ok e
    /\ field_value e "📊 Risk" = Some (PStr "**5.25** pts").
Proof.
  destruct (entry_distances_rendered (udb := ascii_only_db) 1700000000 entry_example
              f_4480 (S754_finite false 4920039656390656 (-40))
              (S754_finite false 4933508673830912 (-40)) f_4480)
    as [e [He [_ [Hr _]]]]; try (vm_compute; reflexivity).
  exists e. split; [exact He|]. rewrite Hr. vm_compute. reflexivity.
Defined.

(** C4, counterexample.  For [{"type": "eod", "direction": "SHORT",
    "price": 4480.0, "pnl": -5.25}] the result is LOSS and the colour
    red, but the text of the P&L field is ["-5.25 pts"], not
    ["-5.25"]. *)
Lemma eod_pnl_text_carries_the_unit :
  exists e : embed,
    eod_message (udb := ascii_only_db) 1700000000 eod_example = Ok e
    /\ field_value e "📋 Result" = Some (PStr "LOSS")
    /\ color e = RED
    /\ field_value e "📊 P&L" = Some (PStr "-5.25 pts")
    /\ field_value e "📊 P&L" <> Some (PStr "-5.25").
Proof.
  eexists. split; [vm_compute; reflexivity|].
  repeat split; try (vm_compute; reflexivity).
  vm_compute. discriminate.
Qed.

(** C4 at the specification's end-of-day example. *)
Lemma eod_result_color_and_pnl_witness :
  exists e : embed,
    eod_message (udb := ascii_only_db) 1700000000 eod_example = Ok e
    /\ field_value e "📋 Result" = Some (PStr "LOSS")
    /\ color e = RED
    /\ field_value e "📊 P&L" = Some (PStr "-5.25 pts").
Proof.
  destruct (eod_result_color_and_pnl (udb := ascii_only_db) 1700000000 eod_example
              f_4480 minus_5_25 eq_refl eq_refl)
    as [e [He [_ [_ [_ [_ [_ Hex]]]]]]].
  exists e. split; [exact He|]. exact (Hex eq_refl).
Defined.

(** C5 at the sample entry (LONG, green) and end-of-day (pnl -5.25, red)
    payloads. *)
Lemma color_selection_witness :
  (exists e : embed,
      entry_message (udb := ascii_only_db) 1700000000 entry_example = Ok e
      /\ color e = GREEN)
  /\ (exists e : embed,
        eod_message (udb := ascii_only_db) 1700000000 eod_example = Ok e
        /\ color e = RED).
Proof.
  split.
  - destruct (entry_message (udb := ascii_only_db) 1700000000 entry_example)
      as [e|] eqn:He; [|vm_compute in He; discriminate He].
    exists e. split; [reflexivity|].
    destruct (color_selection (udb := ascii_only_db) 1700000000 entry_example e)
      as [H _].
    apply (H He). reflexivity.
  - destruct (eod_message (udb := ascii_only_db) 1700000000 eod_example)
      as [e|] eqn:He; [|vm_compute in He; discriminate He].
    exists e. split; [reflexivity|].
    destruct (color_selection (udb := ascii_only_db) 1700000000 eod_example e)
      as [_ H].
    apply (H He minus_5_25); reflexivity.
Defined.

(** C6 with a wrong secret and with no header at all. *)
Lemma webhook_rejects_bad_secret_witness :
  webhook sample_env sample_cfg
    {| header_secret := Some "guess"; request_json := Ok (PDict eod_example) |} idle
  = ({| body := PDict [("error", PStr "Unauthorized")]; status := 401 |}, idle)
  /\ webhook sample_env sample_cfg
       {| header_secret := None; request_json := Ok (PDict eod_example) |} idle
     = ({| body := PDict [("error", PStr "Unauthorized")]; status := 401 |}, idle).
Proof.
  split.
  - apply (webhook_rejects_bad_secret (udb := ascii_only_db) sample_env sample_cfg).
    simpl. discriminate.
  - apply (webhook_rejects_bad_secret (udb := ascii_only_db) sample_env sample_cfg).
    simpl. discriminate.
Defined.

(** C7 with the right secret and a body the parser rejects. *)
Lemma webhook_parse_failure_witness :
  webhook sample_env sample_cfg
    {| header_secret := Some "your-secret-key";
       request_json := Raise (Exn (OtherError "BadRequest") "400 Bad Request") |} idle
  = ({| body := PDict [("error", PStr "400 Bad Request")]; status := 500 |},
     {| stdout := ["Error processing webhook: 400 Bad Request"];
        tasks := []; outbox := [] |}).
Proof.
  apply (webhook_parse_failure (udb := ascii_only_db) sample_env sample_cfg
           {| header_secret := Some "your-secret-key";
              request_json := Raise (Exn (OtherError "BadRequest") "400 Bad Request") |}
           idle (Exn (OtherError "BadRequest") "400 Bad Request")); reflexivity.
Defined.

(** C8, counterexample.  An entry payload with no [timeframe] reads it as
    ["Unknown"], which is neither ["UNKNOWN"] nor the empty string; the
    title and the footer show it. *)
Lemma missing_timeframe_reads_Unknown :
  exists (l : entry_locals) (e : embed),
    entry_read (udb := ascii_only_db) bare_entry = Ok l
    /\ dict_has bare_entry "timeframe" = false
    /\ e_timeframe l = PStr "Unknown"
    /\ e_timeframe l <> PStr "UNKNOWN"
    /\ e_timeframe l <> PStr ""
    /\ entry_message (udb := ascii_only_db) 1700000000 bare_entry = Ok e
    /\ title e = "🔴 UNKNOWN ENTRY -  [Unknown]"
    /\ footer e = Some "ICT Pro v10 Optimized | Unknown Chart | Trade at your own risk".
Proof.
  eexists. eexists. split; [vm_compute; reflexivity|].
  split; [reflexivity|]. split; [reflexivity|].
  split; [discriminate|]. split; [discriminate|].
  split; [vm_compute; reflexivity|].
  split; vm_compute; reflexivity.
Qed.

(** C8 at the entry payload that has nothing but its type. *)
Lemma missing_fields_default_witness :
  exists l : entry_locals,
    entry_read (udb := ascii_only_db) bare_entry = Ok l
    /\ e_direction l = PStr "UNKNOWN"
    /\ e_entry l = float_zero
    /\ e_mode l = PStr ""
    /\ e_timeframe l = PStr "Unknown".
Proof.
  destruct (entry_read (udb := ascii_only_db) bare_entry) as [l|] eqn:Hl;
    [|vm_compute in Hl; discriminate Hl].
  exists l. split; [reflexivity|].
  destruct (missing_fields_default (udb := ascii_only_db) bare_entry) as [_ [H _]].
  destruct (H l Hl) as [H1 [H2 [_ [_ [_ [H6 [_ [_ H9]]]]]]]].
  repeat split; [apply H1 | apply H2 | apply H6 | apply H9]; reflexivity.
Defined.

(** C9, counterexample.  For [{"type": "entry", "mo_bias": 1.5}] the
    field holds the text ["1.5"], not the number 1.5 of the payload; for
    [{"type": "entry", "mo_bias": null}] it holds the text ["None"]. *)
Lemma midnight_open_holds_text :
  (exists e : embed,
      entry_message (udb := ascii_only_db) 1700000000 entry_with_numeric_bias = Ok e
      /\ dict_lookup entry_with_numeric_bias "mo_bias" = Some (PFloat f_1_5)
      /\ field_value e "🌙 Midnight Open" = Some (PStr "1.5")
      /\ field_value e "🌙 Midnight Open" <> Some (PFloat f_1_5))
  /\ (exists e : embed,
        entry_message (udb := ascii_only_db) 1700000000 entry_with_null_bias = Ok e
        /\ dict_lookup entry_with_null_bias "mo_bias" = Some PNone
        /\ field_value e "🌙 Midnight Open" = Some (PStr "None")
        /\ field_value e "🌙 Midnight Open" <> Some PNone).
Proof.
  split; eexists; (split; [vm_compute; reflexivity|]);
    (split; [reflexivity|]); (split; [vm_compute; reflexivity|]);
    vm_compute; discriminate.
Qed.

(** C9 at the sample entry payload, whose [mo_bias] is the text [above],
    and at the one whose [mo_bias] is the number 1.5. *)
Lemma midnight_open_iff_mo_bias_witness :
  (exists e : embed,
      entry_message (udb := ascii_only_db) 1700000000 entry_example = Ok e
      /\ field_value e "🌙 Midnight Open" = Some (PStr "above"))
  /\ (exists e : embed,
        entry_message (udb := ascii_only_db) 1700000000 entry_with_numeric_bias = Ok e
        /\ field_value e "🌙 Midnight Open" = Some (PStr "1.5")).
Proof.
  split.
  - destruct (entry_message (udb := ascii_only_db) 1700000000 entry_example)
      as [e|] eqn:He; [|vm_compute in He; discriminate He].
    exists e. split; [reflexivity|].
    destruct (midnight_open_iff_mo_bias (udb := ascii_only_db) 1700000000
                entry_example e He) as [_ [_ [Hs _]]].
    apply Hs. reflexivity.
  - destruct (entry_message (udb := ascii_only_db) 1700000000 entry_with_numeric_bias)
      as [e|] eqn:He; [|vm_compute in He; discriminate He].
    exists e. split; [reflexivity|].
    destruct (midnight_open_iff_mo_bias (udb := ascii_only_db) 1700000000
                entry_with_numeric_bias e He) as [_ [Hv _]].
    rewrite (Hv (PFloat f_1_5) eq_refl). vm_compute. reflexivity.
Defined.

(** C10 at a tp1 payload with profit -5.25. *)
Lemma profit_text_forces_plus_witness :
  exists e : embed,
    tp1_message (udb := ascii_only_db) 1700000000 tp1_negative_example = Ok e
    /\ field_value e "📈 Profit" = Some (PStr "+-5.25 pts").
Proof.
  destruct (profit_text_forces_plus (udb := ascii_only_db) 1700000000
              tp1_negative_example f_4480 minus_5_25 eq_refl eq_refl)
    as [[e [He Hf]] [_ [_ Hex]]].
  exists e. split; [exact He|].
  rewrite Hf. destruct (Hex eq_refl) as [-> _]. reflexivity.
Defined.

(** * Further properties

    What the rest of [bot.py] shows: the start-up configuration, the
    webhook in all its outcomes, the effects of [send_alert], the loop,
    and the exit formatters. *)

(** ** Decimal numerals read back *)

Section Numerals.
Context {udb : UnicodeDB}.

Lemma is_digit_ord (c : ascii) : is_digit c = true -> 48 <= ord c <= 57.
Proof. unfold is_digit. intros H. apply andb_prop in H. lia. Qed.

Lemma digit_is_no_space (c : ascii) : is_digit c = true -> is_c_space c = false.
Proof.
  intros H. apply is_digit_ord in H. unfold is_c_space.
  apply orb_false_intro; [|apply andb_false_intro2]; lia.
Qed.

Lemma uint_chars_digits (u : Decimal.uint) :
  forallb is_digit (list_ascii_of_string (NilEmpty.string_of_uint u)) = true.
Proof. induction u; simpl; auto. Qed.

Lemma uint_chars_nil (u : Decimal.uint) :
  NilEmpty.string_of_uint u = "" -> u = Decimal.Nil.
Proof. destruct u; simpl; intros H; [reflexivity | discriminate H ..]. Qed.

(** The value of a run of digits, left to right from [acc]. *)
Lemma scan_int_digits (l : list ascii) :
  forallb is_digit l = true ->
  forall (prev : ascii) (acc n : Z),
    l <> [] \/ ord prev <> 95 ->
    scan_int prev l acc n
    = Some (fold_left (fun a c => a * 10 + (ord c - 48)) l acc,
            n + Z.of_nat (List.length l), []).
Proof.
  induction l as [|c r IH]; intros Hd prev acc n Hp.
  - simpl. destruct Hp as [Hp|Hp]; [now destruct Hp|].
    apply Z.eqb_neq in Hp. rewrite Hp. now rewrite Z.add_0_r.
  - simpl in Hd. apply andb_prop in Hd. destruct Hd as [Hc Hr].
    pose proof (is_digit_ord c Hc) as Ho.
    cbn [scan_int]. rewrite Hc.
    replace (ord c =? 95) with false by (symmetry; apply Z.eqb_neq; lia).
    rewrite (IH Hr c _ _) by (right; lia).
    replace (n + Z.of_nat (List.length (c :: r))) with (n + 1 + Z.of_nat (List.length r))
      by (cbn [List.length]; lia).
    reflexivity.
Qed.

Lemma uint_value_acc (u : Decimal.uint) :
  forall p : positive,
    fold_left (fun a c => a * 10 + (ord c - 48))
      (list_ascii_of_string (NilEmpty.string_of_uint u)) (Zpos p)
    = Zpos (Pos.of_uint_acc u p).
Proof.
  induction u; intros p; cbn [NilEmpty.string_of_uint list_ascii_of_string fold_left Pos.of_uint_acc];
    [reflexivity
    | rewrite <- IHu; f_equal;
      match goal with
      | |- context [ord ?c] =>
          let v := eval vm_compute in (ord c) in change (ord c) with v
      end; lia ..].
Qed.

Lemma uint_value (u : Decimal.uint) :
  fold_left (fun a c => a * 10 + (ord c - 48))
    (list_ascii_of_string (NilEmpty.string_of_uint u)) 0
  = Z.of_N (Pos.of_uint u).
Proof.
  induction u; cbn [NilEmpty.string_of_uint list_ascii_of_string fold_left Pos.of_uint];
    [reflexivity | exact IHu | exact (uint_value_acc u _) ..].
Qed.

(** The digits of a natural number: all digits, at least one, and their
    value is the number. *)
Lemma digits_of_N_spec (n : N) :
  let l := list_ascii_of_string (digits_of_N n) in
  forallb is_digit l = true
  /\ l <> []
  /\ fold_left (fun a c => a * 10 + (ord c - 48)) l 0 = Z.of_N n.
Proof.
  unfold digits_of_N, NilZero.string_of_uint.
  assert (N.to_uint n <> Decimal.Nil) as Hn.
  { destruct n; [discriminate | apply DecimalPos.Unsigned.to_uint_nonnil]. }
  destruct (N.to_uint n) as [|u|u|u|u|u|u|u|u|u|u] eqn:E; [now destruct Hn | ..];
    rewrite <- E; (split; [apply uint_chars_digits|]);
    (split; [rewrite E; discriminate|]);
    rewrite uint_value; change Pos.of_uint with N.of_uint;
    now rewrite DecimalN.Unsigned.of_to.
Qed.

(** Text without a character above ASCII is parsed as it stands. *)
Lemma utf8_decode_ascii (l : list ascii) :
  forallb (fun c => ord c <? 128) l = true ->
  utf8_decode_bytes (map ord l) = map ord l.
Proof.
  induction l as [|c r IH]; simpl; [reflexivity|].
  intros H. apply andb_prop in H. destruct H as [Hc Hr].
  rewrite Hc. now rewrite IH.
Qed.

Lemma numeric_text_ascii (s : string) :
  forallb (fun c => ord c <? 128) (list_ascii_of_string s) = true ->
  numeric_text s = list_ascii_of_string s.
Proof.
  intros H. unfold numeric_text, utf8_decode, bytes_of.
  rewrite (utf8_decode_ascii _ H).
  replace (forallb (fun cp => cp <? 128) (map ord (list_ascii_of_string s))) with true;
    [reflexivity|].
  symmetry. rewrite <- H. clear H.
  induction (list_ascii_of_string s) as [|c r IH]; simpl; [reflexivity | now rewrite IH].
Qed.

Lemma digits_are_ascii (l : list ascii) :
  forallb is_digit l = true -> forallb (fun c => ord c <? 128) l = true.
Proof.
  induction l as [|c r IH]; simpl; [reflexivity|].
  intros H. apply andb_prop in H. destruct H as [Hc Hr].
  apply is_digit_ord in Hc. rewrite (IH Hr).
  replace (ord c <? 128) with true by (symmetry; apply Z.ltb_lt; lia). reflexivity.
Qed.

Variable max_str_digits : Z.

(** What [int] makes of a run of digits, with or without a minus sign,
    when the run is within the interpreter's limit. *)
Lemma int_of_digits (neg : bool) (n : N) :
  max_str_digits <= 0 \/ Z.of_nat (String.length (digits_of_N n)) <= max_str_digits ->
  int_of_string max_str_digits ((if neg then "-" else "") ++ digits_of_N n)
  = Ok (if neg then - Z.of_N n else Z.of_N n).
Proof.
  intros Hmax.
  destruct (digits_of_N_spec n) as [Hd [Hne Hv]].
  set (l := list_ascii_of_string (digits_of_N n)) in *.
  assert (String.length (digits_of_N n) = List.length l) as Hlen.
  { unfold l. clear. induction (digits_of_N n); simpl; congruence. }
  rewrite Hlen in Hmax.
  assert (list_ascii_of_string ((if neg then "-" else "") ++ digits_of_N n)
          = (if neg then ["-"%char] else []) ++ l)%list as Hchars.
  { destruct neg; reflexivity. }
  unfold int_of_string. rewrite numeric_text_ascii.
  2:{ rewrite Hchars. destruct neg; simpl; now rewrite (digits_are_ascii l Hd). }
  rewrite Hchars.
  destruct l as [|c r] eqn:El; [now destruct Hne|].
  assert (is_digit c = true) as Hc by (simpl in Hd; now apply andb_prop in Hd).
  pose proof (is_digit_ord c Hc) as Ho.
  pose proof (digit_is_no_space c Hc) as Hs.
  assert (read_sign (c :: r) = (false, c :: r)) as Hsign.
  { unfold read_sign.
    replace (ord c =? 45) with false by (symmetry; apply Z.eqb_neq; lia).
    replace (ord c =? 43) with false by (symmetry; apply Z.eqb_neq; lia).
    reflexivity. }
  assert (drop_spaces (c :: r) = c :: r) as Hdrop by (simpl; now rewrite Hs).
  assert (read_sign (drop_spaces ((if neg then ["-"%char] else []) ++ c :: r))
          = (neg, c :: r)) as Hhead.
  { destruct neg; [reflexivity|]. cbn [app]. now rewrite Hdrop. }
  rewrite Hhead.
  replace (ord c =? 95) with false by (symmetry; apply Z.eqb_neq; lia).
  rewrite (scan_int_digits (c :: r) Hd) by (left; discriminate).
  rewrite Hv. cbn [Z.add drop_spaces].
  replace (Z.of_nat (List.length (c :: r)) =? 0) with false
    by (symmetry; apply Z.eqb_neq; cbn [List.length]; lia).
  replace ((640 <? Z.of_nat (List.length (c :: r))) && (0 <? max_str_digits)
           && (max_str_digits <? Z.of_nat (List.length (c :: r)))) with false;
    [reflexivity|].
  symmetry. destruct Hmax as [Hm|Hm].
  - replace (0 <? max_str_digits) with false by (symmetry; apply Z.ltb_ge; lia).
    now rewrite andb_false_r.
  - replace (max_str_digits <? Z.of_nat (List.length (c :: r))) with false
      by (symmetry; apply Z.ltb_ge; lia).
    now rewrite andb_false_r.
Qed.

(** [int(str(z)) = z]. *)
Lemma int_of_int_str (z : Z) :
  max_str_digits <= 0 \/ Z.of_nat (String.length (int_str z)) <= max_str_digits ->
  int_of_string max_str_digits (int_str z) = Ok z.
Proof.
  intros Hmax. destruct z as [|p|p].
  - apply (int_of_digits false 0). exact Hmax.
  - apply (int_of_digits false (Npos p)). exact Hmax.
  - apply (int_of_digits true (Npos p)).
    destruct Hmax as [Hm|Hm]; [now left | right].
    unfold int_str in Hm. simpl String.length in Hm. lia.
Qed.

(** [int] of a string raises nothing but [ValueError]. *)
Lemma int_of_string_raises_ValueError (s : string) (e : exn) :
  int_of_string max_str_digits s = Raise e -> exn_class_of e = ValueError.
Proof.
  unfold int_of_string, invalid_literal.
  destruct (read_sign _) as [neg r].
  destruct r as [|c r]; [intros [= <-]; reflexivity|].
  destruct (ord c =? 95); [intros [= <-]; reflexivity|].
  destruct (scan_int _ _ _ _) as [[[v digits] rest]|]; [|intros [= <-]; reflexivity].
  destruct (digits =? 0); [intros [= <-]; reflexivity|].
  destruct (_ && _); [intros [= <-]; reflexivity|].
  destruct (drop_spaces rest); [discriminate | intros [= <-]; reflexivity].
Qed.

End Numerals.

(** ** The webhook and the dispatcher, case by case *)

Section Cases.
Context {udb : UnicodeDB}.
Variable env : environment.
Variable cfg : config.

Lemma secret_ok_iff (req : request) :
  secret_ok cfg req = true <-> header_secret req = Some (WEBHOOK_SECRET cfg).
Proof.
  unfold secret_ok. destruct (header_secret req) as [h|].
  - rewrite String.eqb_eq. split; congruence.
  - split; discriminate.
Qed.

(** The three ways the body of the [try] can end. *)
Lemma webhook_try_cases (req : request) (w : world) :
  (exists e : exn, request_json req = Raise e /\ webhook_try env req w = (Raise e, w))
  \/ (exists (data : pyval) (e : exn),
        request_json req = Ok data /\ create_task_error env = Some e
        /\ webhook_try env req w
           = (Raise e,
              {| stdout := stdout w ++ ["Received webhook: " ++ json_dumps 2 data];
                 tasks := tasks w; outbox := outbox w |}))
  \/ (exists data : pyval,
        request_json req = Ok data /\ create_task_error env = None
        /\ webhook_try env req w
           = (Ok {| body := PDict [("status", PStr "success")]; status := 200 |},
              {| stdout := stdout w ++ ["Received webhook: " ++ json_dumps 2 data];
                 tasks := tasks w ++ [data]; outbox := outbox w |})).
Proof.
  unfold webhook_try, bind, lift, print, schedule, ret.
  destruct (request_json req) as [data|e]; [|left; eauto].
  right. destruct (create_task_error env) as [e|]; [left | right]; eauto.
Qed.

(** What a send of an embed does: nothing when it raises, one message
    more when the channel takes it. *)
Lemma send_embed_cases (ch : channel) (m : res embed) (w : world) :
  (exists e : exn, send_embed ch m w = (Raise e, w))
  \/ (exists msg : outgoing,
        send_error ch msg = None
        /\ send_embed ch m w
           = (Ok tt, {| stdout := stdout w; tasks := tasks w;
                        outbox := outbox w ++ [msg] |})).
Proof.
  destruct m as [m|e].
  - rewrite send_embed_ok.
    destruct (channel_send_cases ch (Embedded m) w) as [[e [_ H]]|[Ha H]]; eauto.
  - left. exists e. apply send_embed_raise.
Qed.

(** What [send_alert] does, whatever the payload: the not-found line
    without a channel; with one, an exception and no effect, or one
    message that the channel took. *)
Lemma send_alert_cases (data : pyval) (w : world) :
  (get_channel env (DISCORD_CHANNEL_ID cfg) = None
   /\ send_alert env cfg data w
      = (Ok tt,
         {| stdout := stdout w
                      ++ ["Channel " ++ int_str (DISCORD_CHANNEL_ID cfg) ++ " not found!"];
            tasks := tasks w; outbox := outbox w |}))
  \/ (exists ch : channel,
        get_channel env (DISCORD_CHANNEL_ID cfg) = Some ch
        /\ ((exists e : exn, send_alert env cfg data w = (Raise e, w))
            \/ (exists msg : outgoing,
                  send_error ch msg = None
                  /\ send_alert env cfg data w
                     = (Ok tt, {| stdout := stdout w; tasks := tasks w;
                                  outbox := outbox w ++ [msg] |})))).
Proof.
  destruct (get_channel env (DISCORD_CHANNEL_ID cfg)) as [ch|] eqn:Hc.
  - right. exists ch. split; [reflexivity|].
    unfold send_alert. rewrite Hc.
    destruct data; try (left; eexists; reflexivity).
    split_route;
      try (unfold send_entry_alert, send_tp1_alert, send_tp2_alert,
             send_sl_alert, send_eod_alert; apply send_embed_cases).
    destruct (channel_send_cases ch (Content (generic_text (PDict d))) w)
      as [[e [_ H]]|[Ha H]]; eauto.
  - left. split; [reflexivity|]. exact (send_alert_unresolved env cfg data w Hc).
Qed.

(** The world after [send_alert]: at most one line and at most one
    message more, the tasks as they were. *)
Lemma send_alert_world (data : pyval) (w : world) :
  exists (log : list string) (msgs : list outgoing),
    snd (send_alert env cfg data w)
    = {| stdout := stdout w ++ log; tasks := tasks w; outbox := outbox w ++ msgs |}
    /\ (List.length msgs <= 1)%nat
    /\ (msgs <> [] -> log = []).
Proof.
  destruct (send_alert_cases data w) as [[_ H]|[ch [_ [[e H]|[msg [_ H]]]]]]; rewrite H.
  - exists ["Channel " ++ int_str (DISCORD_CHANNEL_ID cfg) ++ " not found!"], [].
    cbn [snd]. rewrite app_nil_r.
    split; [reflexivity|]. split; [simpl; lia | congruence].
  - exists [], []. cbn [snd]. destruct w as [out ts box]. cbn [stdout tasks outbox].
    rewrite !app_nil_r. split; [reflexivity|]. split; [simpl; lia | congruence].
  - exists [], [msg]. cbn [snd]. rewrite app_nil_r.
    split; [reflexivity|]. split; [simpl; lia | reflexivity].
Qed.

(** The loop over [n] tasks: the first [n] tasks are gone, and what was
    printed and sent before is still there, with at most [n] messages
    more. *)
Lemma run_tasks_world (n : nat) :
  forall w : world,
    (n <= List.length (tasks w))%nat ->
    exists (log : list string) (msgs : list outgoing),
      run_tasks env cfg n w
      = {| stdout := stdout w ++ log; tasks := skipn n (tasks w);
           outbox := outbox w ++ msgs |}
      /\ (List.length msgs <= n)%nat.
Proof.
  induction n as [|n IH]; intros w Hn.
  - exists [], []. destruct w as [out ts box]. cbn. rewrite !app_nil_r.
    split; [reflexivity | lia].
  - cbn [run_tasks]. unfold run_task.
    destruct (tasks w) as [|data rest] eqn:Ht; [simpl in Hn; lia|].
    destruct (send_alert_world data {| stdout := stdout w; tasks := rest; outbox := outbox w |})
      as [log [msgs [H [Hm _]]]].
    rewrite H. cbn [stdout tasks outbox].
    match goal with |- context [run_tasks env cfg n ?w1] =>
      destruct (IH w1) as [log' [msgs' [H' Hm']]]; [cbn [tasks]; simpl in Hn; lia|];
      rewrite H'
    end.
    cbn [stdout tasks outbox skipn].
    exists (log ++ log')%list, (msgs ++ msgs')%list. rewrite !app_assoc.
    split; [reflexivity|]. rewrite length_app. lia.
Qed.

(** The loop with one task. *)
Lemma run_pending_one (data : pyval) (out : list string) (box : list outgoing) :
  run_pending env cfg {| stdout := out; tasks := [data]; outbox := box |}
  = snd (send_alert env cfg data {| stdout := out; tasks := []; outbox := box |}).
Proof. reflexivity. Qed.

End Cases.

Section StartupLemmas.
Context {udb : UnicodeDB}.
Variable max_str_digits : Z.
Variable environ : string -> option string.

Lemma load_config_ok (text : string) (z : Z) :
  environ "DISCORD_CHANNEL_ID" = Some text ->
  int_of_string max_str_digits text = Ok z ->
  load_config max_str_digits environ
  = Ok {| DISCORD_CHANNEL_ID := z;
          WEBHOOK_SECRET :=
            match environ "WEBHOOK_SECRET" with
            | Some secret => secret
            | None => "your-secret-key"
            end |}.
Proof.
  intros He Hz. unfold load_config, getenv. rewrite He. cbn [py_int].
  rewrite Hz. reflexivity.
Qed.

Lemma load_config_secret (cfg : config) :
  load_config max_str_digits environ = Ok cfg ->
  WEBHOOK_SECRET cfg
  = match environ "WEBHOOK_SECRET" with
    | Some secret => secret
    | None => "your-secret-key"
    end.
Proof.
  unfold load_config.
  destruct (py_int max_str_digits (getenv environ "DISCORD_CHANNEL_ID" PNone));
    [|discriminate].
  simpl. intros [= <-]. reflexivity.
Qed.

End StartupLemmas.

(** ** Start-up *)

Section StartupProperties.
Context {udb : UnicodeDB}.
Variable max_str_digits : Z.
Variable environ : string -> option string.

(** X1.  The program starts only with a channel id that spells an
    integer: without the variable [int(None)] raises [TypeError], with
    text that is no integer numeral [int] raises [ValueError], and either
    ends the import; otherwise the configuration holds that integer and
    the secret of the environment, or the placeholder when there is
    none. *)
Theorem startup_needs_channel_id :
  (environ "DISCORD_CHANNEL_ID" = None ->
   exists e : exn,
     load_config max_str_digits environ = Raise e /\ exn_class_of e = TypeError)
  /\ (forall (text : string) (e : exn),
         environ "DISCORD_CHANNEL_ID" = Some text ->
         int_of_string max_str_digits text = Raise e ->
         load_config max_str_digits environ = Raise e /\ exn_class_of e = ValueError)
  /\ (forall (text : string) (z : Z),
         environ "DISCORD_CHANNEL_ID" = Some text ->
         int_of_string max_str_digits text = Ok z ->
         load_config max_str_digits environ
         = Ok {| DISCORD_CHANNEL_ID := z;
                 WEBHOOK_SECRET :=
                   match environ "WEBHOOK_SECRET" with
                   | Some secret => secret
                   | None => "your-secret-key"
                   end |})
  /\ (raises (load_config max_str_digits environ) = false
      <-> exists (text : string) (z : Z),
          environ "DISCORD_CHANNEL_ID" = Some text
          /\ int_of_string max_str_digits text = Ok z).
Proof.
  unfold load_config, getenv.
  destruct (environ "DISCORD_CHANNEL_ID") as [text|] eqn:E.
  - cbn [py_int]. repeat apply conj.
    + discriminate.
    + intros t e [= <-] He. rewrite He. split; [reflexivity|].
      exact (int_of_string_raises_ValueError _ _ _ He).
    + intros t z [= <-] Hz. rewrite Hz. reflexivity.
    + destruct (int_of_string max_str_digits text) as [z|e] eqn:Hz; simpl.
      * intros _. eauto.
      * discriminate.
    + intros [t [z [[= <-] Hz]]]. rewrite Hz. reflexivity.
  - cbn [py_int res_bind type_name]. repeat apply conj.
    + intros _. eexists. split; reflexivity.
    + discriminate.
    + discriminate.
    + discriminate.
    + intros [t [z [Ht _]]]. discriminate Ht.
Qed.

(** X2.  A channel id written as a plain decimal numeral is read back as
    that number, and the two lines that show the id, the one of
    [on_ready] and the one [send_alert] prints when the channel is not
    found, show the text of the environment unchanged. *)
Theorem channel_id_reads_back (z : Z) (env : environment) (bot_user : string)
    (data : pyval) (w : world) :
  environ "DISCORD_CHANNEL_ID" = Some (int_str z) ->
  max_str_digits <= 0 \/ Z.of_nat (String.length (int_str z)) <= max_str_digits ->
  exists cfg : config,
    load_config max_str_digits environ = Ok cfg
    /\ DISCORD_CHANNEL_ID cfg = z
    /\ on_ready cfg bot_user w
       = (Ok tt,
          {| stdout := stdout w
                       ++ [bot_user ++ " has connected to Discord!";
                           "Bot is ready to send alerts to channel: " ++ int_str z];
             tasks := tasks w; outbox := outbox w |})
    /\ (get_channel env z = None ->
        send_alert env cfg data w
        = (Ok tt,
           {| stdout := stdout w ++ ["Channel " ++ int_str z ++ " not found!"];
              tasks := tasks w; outbox := outbox w |})).
Proof.
  intros He Hmax.
  pose proof (load_config_ok max_str_digits environ (int_str z) z He
                (int_of_int_str max_str_digits z Hmax)) as H.
  eexists. split; [exact H|]. split; [reflexivity|]. split.
  - unfold on_ready, bind, print. cbn [stdout tasks outbox DISCORD_CHANNEL_ID].
    now rewrite <- app_assoc.
  - intros Hc. unfold send_alert. cbn [DISCORD_CHANNEL_ID]. rewrite Hc. reflexivity.
Qed.

(** X3.  The secret the webhook compares with is the text of
    [WEBHOOK_SECRET], or ["your-secret-key"] when the variable is not
    set: a request is refused with 401 exactly when its header is not
    that text. *)
Theorem secret_comes_from_environment (cfg : config) (env : environment)
    (req : request) (w : world) :
  load_config max_str_digits environ = Ok cfg ->
  let secret := match environ "WEBHOOK_SECRET" with
                | Some text => text
                | None => "your-secret-key"
                end in
  status (fst (webhook env cfg req w)) = 401 <-> header_secret req <> Some secret.
Proof.
  intros Hl secret.
  pose proof (load_config_secret max_str_digits environ cfg Hl) as Hs.
  fold secret in Hs.
  unfold webhook. destruct (secret_ok cfg req) eqn:E; cbn [negb].
  - apply secret_ok_iff in E. rewrite Hs in E.
    split; [|congruence]. intros H401. exfalso. revert H401.
    destruct (webhook_try_cases env req w)
      as [[e [_ ->]]|[[data [e [_ [_ ->]]]]|[data [_ [_ ->]]]]];
      cbn [fst status]; discriminate.
  - cbn [fst status]. split; [|reflexivity].
    intros _ Hh. rewrite <- Hs in Hh. apply secret_ok_iff in Hh. congruence.
Qed.

(** X4.  The port [run_flask] hands to the server is 5000 when [PORT] is
    not set, and whatever integer [PORT] spells when it is: the number is
    not checked to be a port. *)
Theorem flask_port_is_not_checked :
  (environ "PORT" = None -> flask_port max_str_digits environ = Ok 5000)
  /\ (forall z : Z,
         environ "PORT" = Some (int_str z) ->
         max_str_digits <= 0 \/ Z.of_nat (String.length (int_str z)) <= max_str_digits ->
         flask_port max_str_digits environ = Ok z).
Proof.
  unfold flask_port, getenv. split.
  - intros ->. reflexivity.
  - intros z -> Hmax. cbn [py_int]. exact (int_of_int_str max_str_digits z Hmax).
Qed.

End StartupProperties.

(** ** The webhook, the dispatcher and the loop *)

Section Relaying.
Context {udb : UnicodeDB}.
Variable env : environment.
Variable cfg : config.

(** X5.  Every request ends in one of three ways.  A wrong or missing
    secret: 401, nothing printed, nothing scheduled.  The right secret, a
    body that parses and a loop that takes the task: 200, the payload
    printed, and [send_alert] scheduled on that payload, once.  The right
    secret and an exception from the parser or from the loop: 500 with
    its text, the error printed, nothing scheduled.  The webhook itself
    never sends a message. *)
Theorem webhook_answers (req : request) (w : world) :
  let r := fst (webhook env cfg req w) in
  let w' := snd (webhook env cfg req w) in
  outbox w' = outbox w
  /\ ((header_secret req <> Some (WEBHOOK_SECRET cfg)
       /\ r = {| body := PDict [("error", PStr "Unauthorized")]; status := 401 |}
       /\ w' = w)
      \/ (header_secret req = Some (WEBHOOK_SECRET cfg)
          /\ exists data : pyval,
            request_json req = Ok data
            /\ create_task_error env = None
            /\ r = {| body := PDict [("status", PStr "success")]; status := 200 |}
            /\ w' = {| stdout := stdout w ++ ["Received webhook: " ++ json_dumps 2 data];
                       tasks := tasks w ++ [data]; outbox := outbox w |})
      \/ (header_secret req = Some (WEBHOOK_SECRET cfg)
          /\ exists e : exn,
            r = {| body := PDict [("error", PStr (exn_str e))]; status := 500 |}
            /\ tasks w' = tasks w
            /\ ((request_json req = Raise e
                 /\ stdout w' = (stdout w ++ [("Error processing webhook: " ++ exn_str e)%string])%list)
                \/ (exists data : pyval,
                      request_json req = Ok data
                      /\ create_task_error env = Some e
                      /\ stdout w'
                         = (stdout w
                            ++ [("Received webhook: " ++ json_dumps 2 data)%string;
                                ("Error processing webhook: " ++ exn_str e)%string])%list)))).
Proof.
  unfold webhook. destruct (secret_ok cfg req) eqn:E; cbn [negb].
  - apply secret_ok_iff in E.
    destruct (webhook_try_cases env req w)
      as [[e [Hj ->]]|[[data [e [Hj [Hc ->]]]]|[data [Hj [Hc ->]]]]];
      cbn [fst snd outbox tasks stdout]; (split; [reflexivity|]); right.
    + right. split; [exact E|]. exists e. repeat split. left. split; [exact Hj | reflexivity].
    + right. split; [exact E|]. exists e. repeat split. right. exists data.
      repeat split; try assumption. now rewrite <- app_assoc.
    + left. split; [exact E|]. exists data. repeat split; assumption.
  - cbn [fst snd]. split; [reflexivity|]. left. repeat split.
    intros Hh. apply secret_ok_iff in Hh. congruence.
Qed.

(** X6.  Whatever the payload, [send_alert] does one of three things and
    nothing else: with no channel it prints the not-found line; with a
    channel it either raises and leaves the world as it was, or hands one
    message to the channel, which took it.  It never prints and sends,
    never sends twice, and never schedules or removes a task. *)
Theorem send_alert_effects (data : pyval) (w : world) :
  (get_channel env (DISCORD_CHANNEL_ID cfg) = None
   /\ send_alert env cfg data w
      = (Ok tt,
         {| stdout := stdout w
                      ++ ["Channel " ++ int_str (DISCORD_CHANNEL_ID cfg) ++ " not found!"];
            tasks := tasks w; outbox := outbox w |}))
  \/ (exists ch : channel,
        get_channel env (DISCORD_CHANNEL_ID cfg) = Some ch
        /\ ((exists e : exn, send_alert env cfg data w = (Raise e, w))
            \/ (exists msg : outgoing,
                  send_error ch msg = None
                  /\ send_alert env cfg data w
                     = (Ok tt, {| stdout := stdout w; tasks := tasks w;
                                  outbox := outbox w ++ [msg] |})))).
Proof. exact (send_alert_cases env cfg data w). Qed.

(** X7.  The caller is told 200 although nothing is delivered, in three
    cases: the channel is not found, the body is JSON but no object, or a
    number the formatter needs does not coerce.  The reply is the
    success body, the task is gone, and no message has been sent. *)
Theorem acknowledged_but_dropped (req : request) (w : world) (data : pyval) :
  header_secret req = Some (WEBHOOK_SECRET cfg) ->
  request_json req = Ok data ->
  create_task_error env = None ->
  tasks w = [] ->
  get_channel env (DISCORD_CHANNEL_ID cfg) = None
  \/ (forall d : dict, data <> PDict d)
  \/ (exists (d : dict) (e : exn),
        data = PDict d
        /\ coerce_all d (numeric_fields (dict_get d "type" (PStr "unknown"))) = Raise e) ->
  fst (serve env cfg req w)
  = {| body := PDict [("status", PStr "success")]; status := 200 |}
  /\ outbox (snd (serve env cfg req w)) = outbox w
  /\ tasks (snd (serve env cfg req w)) = [].
Proof.
  intros Hs Hj Hc Ht Hwhy.
  unfold serve. rewrite (webhook_accepts env cfg req w data Hs Hj Hc).
  rewrite Ht. cbn [app fst snd]. rewrite run_pending_one.
  split; [reflexivity|].
  destruct (get_channel env (DISCORD_CHANNEL_ID cfg)) as [ch|] eqn:Hch.
  - destruct Hwhy as [Hn|[Hd|[d [e [-> He]]]]]; [discriminate Hn | |].
    + rewrite (send_alert_needs_dict env cfg data _ ch Hch Hd). split; reflexivity.
    + rewrite (send_alert_coercion_raises env cfg d _ ch e Hch He). split; reflexivity.
  - rewrite (send_alert_unresolved env cfg data _ Hch). split; reflexivity.
Qed.

(** X8.  A request with the right secret whose payload is an object with
    numbers that coerce, on a channel that is found and takes the
    message, is answered 200 and ends with exactly one message more in
    the channel, the payload printed, and no task left. *)
Theorem accepted_alert_is_delivered (req : request) (w : world) (d : dict)
    (ch : channel) :
  header_secret req = Some (WEBHOOK_SECRET cfg) ->
  request_json req = Ok (PDict d) ->
  create_task_error env = None ->
  tasks w = [] ->
  get_channel env (DISCORD_CHANNEL_ID cfg) = Some ch ->
  (forall msg : outgoing, send_error ch msg = None) ->
  coerce_all d (numeric_fields (dict_get d "type" (PStr "unknown"))) = Ok tt ->
  exists msg : outgoing,
    serve env cfg req w
    = ({| body := PDict [("status", PStr "success")]; status := 200 |},
       {| stdout := stdout w ++ ["Received webhook: " ++ json_dumps 2 (PDict d)];
          tasks := []; outbox := outbox w ++ [msg] |}).
Proof.
  intros Hs Hj Hc Ht Hch Hacc Hok.
  unfold serve. rewrite (webhook_accepts env cfg req w (PDict d) Hs Hj Hc).
  rewrite Ht. cbn [app]. rewrite run_pending_one.
  match goal with |- context [send_alert env cfg (PDict d) ?w0] =>
    destruct (send_alert_coercion_ok env cfg d w0 ch Hch Hok) as [msg Hm]; rewrite Hm
  end.
  exists msg. unfold channel_send. rewrite Hacc. reflexivity.
Qed.

(** X9.  The loop empties the queue, and what it adds to the channel is
    at most one message for each payload that was scheduled; what was
    printed and what was sent before stay as they were, in their order. *)
Theorem loop_sends_at_most_one_per_task (w : world) :
  let w' := run_pending env cfg w in
  tasks w' = []
  /\ exists (log : list string) (msgs : list outgoing),
      stdout w' = (stdout w ++ log)%list
      /\ outbox w' = (outbox w ++ msgs)%list
      /\ (List.length msgs <= List.length (tasks w))%nat.
Proof.
  unfold run_pending.
  destruct (run_tasks_world env cfg (List.length (tasks w)) w (le_n _))
    as [log [msgs [H Hm]]].
  rewrite H. cbn [stdout tasks outbox]. split.
  - apply skipn_all.
  - exists log, msgs. repeat split. exact Hm.
Qed.

End Relaying.

(** ** The formatters *)

Section FormatterProperties.
Context {udb : UnicodeDB}.

(** *** Colours and results that do not look at the payload *)

(** X10.  A tp1 message takes its colour from the direction, as an entry
    does.  A tp2 message is green and says WINNER whatever the direction
    and the profit, a negative one too; an sl message is red and says
    STOPPED OUT whatever the direction and the loss, and its Loss text is
    the two-decimal loss with no sign forced, then [" pts"]. *)
Theorem exit_colours (now : Z) (d : dict) (price : float) :
  py_float (dict_get d "price" (PInt 0)) = Ok price ->
  let direction := dict_get d "direction" (PStr "UNKNOWN") in
  (forall profit : float,
      py_float (dict_get d "profit" (PInt 0)) = Ok profit ->
      exists e1 e2 : embed,
        tp1_message now d = Ok e1
        /\ tp2_message now d = Ok e2
        /\ (color e1 = GREEN <-> direction = PStr "LONG")
        /\ (direction <> PStr "LONG" -> color e1 = RED)
        /\ color e2 = GREEN
        /\ field_value e2 "✅ Result" = Some (PStr "WINNER"))
  /\ (forall loss : float,
         py_float (dict_get d "loss" (PInt 0)) = Ok loss ->
         exists e : embed,
           sl_message now d = Ok e
           /\ color e = RED
           /\ field_value e "❌ Result" = Some (PStr "STOPPED OUT")
           /\ field_value e "📉 Loss"
              = Some (PStr (format_f false false 2 loss ++ " pts"))).
Proof.
  intros Hp direction. split.
  - intros profit Hq.
    rewrite (tp1_message_ok now d price profit Hp Hq).
    rewrite (tp2_message_ok now d price profit Hp Hq).
    do 2 eexists. split; [reflexivity|]. split; [reflexivity|].
    cbn [color tp1_embed tp2_embed x_direction]. fold direction.
    unfold direction_color.
    destruct (py_eq_str direction "LONG") eqn:E.
    + apply py_eq_str_true in E. repeat split; congruence.
    + apply py_eq_str_false in E. repeat split; try congruence.
      intros G. now destruct green_is_not_red.
  - intros loss Hq. rewrite (sl_message_ok now d price loss Hp Hq).
    eexists. repeat split.
Qed.

(** *** The distances of an entry *)

Lemma format_abs_plus (comma : bool) (p : nat) (x : float) :
  format_f true comma p (float_abs x) = "+" ++ format_f false comma p (float_abs x).
Proof. destruct x; reflexivity. Qed.

Lemma float_abs_not_lt0 (x : float) : float_lt0 (float_abs x) = false.
Proof. destruct x as [s|s| |s m e]; reflexivity. Qed.

(** X11.  In an entry message the number in parentheses after the stop
    and after each target always carries a plus sign, on whichever side
    of the entry the stop or the target lies: the distance is an absolute
    value, never below zero, so the forced sign is never a minus, and the
    stop's number is the Risk field's with a plus in front. *)
Theorem entry_distances_show_plus (now : Z) (d : dict) (entry stop tp1 tp2 : float) :
  py_float (dict_get d "entry" (PInt 0)) = Ok entry ->
  py_float (dict_get d "stop" (PInt 0)) = Ok stop ->
  py_float (dict_get d "tp1" (PInt 0)) = Ok tp1 ->
  py_float (dict_get d "tp2" (PInt 0)) = Ok tp2 ->
  let risk := float_abs (float_sub entry stop) in
  let tp1_dist := float_abs (float_sub tp1 entry) in
  let tp2_dist := float_abs (float_sub tp2 entry) in
  exists e : embed,
    entry_message now d = Ok e
    /\ float_lt0 risk = false /\ float_lt0 tp1_dist = false /\ float_lt0 tp2_dist = false
    /\ field_value e "🛑 Stop Loss"
       = Some (PStr (format_f false true 2 stop ++ newline
                     ++ "(+" ++ format_f false false 2 risk ++ " pts)"))
    /\ field_value e "📊 Risk"
       = Some (PStr ("**" ++ format_f false false 2 risk ++ "** pts"))
    /\ field_value e "🎯 TP1 (1.3R)"
       = Some (PStr (format_f false true 2 tp1 ++ newline
                     ++ "(+" ++ format_f false false 2 tp1_dist ++ " pts)"))
    /\ field_value e "🎯 TP2 (2.0R)"
       = Some (PStr (format_f false true 2 tp2 ++ newline
                     ++ "(+" ++ format_f false false 2 tp2_dist ++ " pts)")).
Proof.
  intros H1 H2 H3 H4 risk tp1_dist tp2_dist.
  unfold entry_message. rewrite (entry_read_ok d entry stop tp1 tp2 H1 H2 H3 H4).
  simpl res_bind.
  match goal with |- context [entry_embed now d ?l] =>
    destruct (entry_embed_ok now d l) as [mo [_ ->]];
    destruct (entry_field_lookup l mo) as [F1 [F2 [F3 [F4 _]]]]
  end.
  eexists. split; [reflexivity|].
  unfold field_value. cbn [fields].
  rewrite F1, F2, F3, F4.
  unfold entry_risk, entry_tp1_dist, entry_tp2_dist. cbn [e_entry e_stop e_tp1 e_tp2].
  fold risk tp1_dist tp2_dist.
  unfold risk at 1, tp1_dist at 1, tp2_dist at 1.
  rewrite !float_abs_not_lt0.
  unfold risk, tp1_dist, tp2_dist. rewrite !format_abs_plus.
  repeat split.
Qed.

(** *** Exchanging entry and stop *)

Lemma binary_round_aux_abs (s s' : bool) (m e : Z) (l : location) :
  float_abs (binary_round_aux prec emax s m e l)
  = float_abs (binary_round_aux prec emax s' m e l).
Proof.
  unfold binary_round_aux.
  destruct (shr_fexp prec emax m e l) as [mrs e1].
  destruct (shr_fexp prec emax _ e1 loc_Exact) as [mrs' e2].
  destruct (shr_m mrs'); try reflexivity.
  destruct (e2 <=? emax - prec); reflexivity.
Qed.

Lemma binary_normalize_abs (z e : Z) :
  float_abs (binary_normalize prec emax (- z) e false)
  = float_abs (binary_normalize prec emax z e false).
Proof.
  destruct z as [|p|p]; cbn [Z.opp binary_normalize]; [reflexivity | |];
    unfold binary_round;
    destruct (shl_align p e _) as [mz ez]; apply binary_round_aux_abs.
Qed.

(** The absolute difference of two floats does not depend on their
    order. *)
Lemma float_abs_sub_sym (x y : float) :
  float_abs (float_sub x y) = float_abs (float_sub y x).
Proof.
  destruct x as [sx|sx| |sx mx ex], y as [sy|sy| |sy my ey];
    try (destruct sx); try (destruct sy); try reflexivity;
    unfold float_sub, SFsub; rewrite (Z.min_comm ey ex);
    match goal with
    | |- float_abs (binary_normalize _ _ ?a _ _) = float_abs (binary_normalize _ _ ?b _ _) =>
        replace a with (- b) by (cbn [cond_Zopp]; lia)
    end; apply binary_normalize_abs.
Qed.

(** X12.  The risk shown does not depend on which of the two prices is
    the entry and which the stop: two entry payloads whose [entry] and
    [stop] are exchanged show the same text in the Risk field. *)
Theorem risk_is_symmetric (now : Z) (d d' : dict) (a b : float) (e e' : embed) :
  py_float (dict_get d "entry" (PInt 0)) = Ok a ->
  py_float (dict_get d "stop" (PInt 0)) = Ok b ->
  py_float (dict_get d' "entry" (PInt 0)) = Ok b ->
  py_float (dict_get d' "stop" (PInt 0)) = Ok a ->
  entry_message now d = Ok e ->
  entry_message now d' = Ok e' ->
  field_value e "📊 Risk" = field_value e' "📊 Risk"
  /\ field_value e "📊 Risk"
     = Some (PStr ("**" ++ format_f false false 2 (float_abs (float_sub a b)) ++ "** pts")).
Proof.
  intros Ha Hb Ha' Hb' H H'.
  destruct (entry_message_inv now d e H) as [l [mo [Hl [_ [Hf _]]]]].
  destruct (entry_message_inv now d' e' H') as [l' [mo' [Hl' [_ [Hf' _]]]]].
  destruct (entry_read_inv d l Hl) as [E1 [E2 _]].
  destruct (entry_read_inv d' l' Hl') as [E1' [E2' _]].
  assert (e_entry l = a) by congruence. assert (e_stop l = b) by congruence.
  assert (e_entry l' = b) by congruence. assert (e_stop l' = a) by congruence.
  destruct (entry_field_lookup l mo) as [_ [F _]].
  destruct (entry_field_lookup l' mo') as [_ [F' _]].
  unfold field_value. rewrite Hf, Hf', F, F'.
  unfold entry_risk. subst a b.
  rewrite H2, H3. rewrite (float_abs_sub_sym (e_stop l) (e_entry l)).
  split; reflexivity.
Qed.

(** *** What a formatter reads *)

Lemma dict_has_as_lookup (d : dict) (key : string) :
  dict_has d key = match dict_lookup d key with Some _ => true | None => false end.
Proof.
  induction d as [|[k v] r IH]; simpl; [reflexivity|].
  destruct (k =? key)%string; [reflexivity | exact IH].
Qed.

Lemma same_on_get (keys : list string) (d d' : dict) (key : string) (dflt : pyval) :
  same_on keys d d' -> In key keys -> dict_get d key dflt = dict_get d' key dflt.
Proof. intros H Hin. unfold dict_get. now rewrite (H key Hin). Qed.

(** A key that is not among those listed can be added in front. *)
Lemma same_on_cons (keys : list string) (d : dict) (key : string) (v : pyval) :
  ~ In key keys -> same_on keys d ((key, v) :: d).
Proof.
  intros Hn k Hin. simpl.
  destruct (key =? k)%string eqn:E; [|reflexivity].
  apply String.eqb_eq in E. subst k. now destruct Hn.
Qed.

(** X13.  A formatter looks at its own keys only: the entry formatter at
    direction, entry, stop, tp1, tp2, mode, time, day, timeframe and
    mo_bias, the tp1 and tp2 formatters at direction, price and profit,
    the sl formatter at direction, price and loss, the eod formatter at
    direction, price and pnl.  Two payloads that agree on those keys give
    the same message or the same exception; so a key outside them,
    [type] included, changes nothing. *)
Theorem formatters_read_only_their_keys (now : Z) (d d' : dict) :
  (same_on entry_keys d d' -> entry_message now d = entry_message now d')
  /\ (same_on ["direction"; "price"; "profit"] d d' ->
      tp1_message now d = tp1_message now d'
      /\ tp2_message now d = tp2_message now d')
  /\ (same_on ["direction"; "price"; "loss"] d d' ->
      sl_message now d = sl_message now d')
  /\ (same_on ["direction"; "price"; "pnl"] d d' ->
      eod_message now d = eod_message now d')
  /\ (forall (key : string) (v : pyval),
         ~ In key entry_keys ->
         entry_message now ((key, v) :: d) = entry_message now d).
Proof.
  assert (same_on entry_keys d d' -> entry_message now d = entry_message now d') as He.
  { intros H.
    unfold entry_message, entry_read, entry_embed, midnight_open, dict_getitem.
    rewrite !dict_has_as_lookup.
    rewrite (H "mo_bias") by (unfold entry_keys; simpl; tauto).
    rewrite !(fun key dflt Hin => same_on_get entry_keys d d' key dflt H Hin)
      by (unfold entry_keys; simpl; tauto).
    reflexivity. }
  split; [exact He|].
  split; [|split; [|split]].
  - intros H. unfold tp1_message, tp2_message, tp1_read, tp2_read.
    rewrite !(fun key dflt Hin => same_on_get _ d d' key dflt H Hin) by (simpl; tauto).
    split; reflexivity.
  - intros H. unfold sl_message, sl_read.
    rewrite !(fun key dflt Hin => same_on_get _ d d' key dflt H Hin) by (simpl; tauto).
    reflexivity.
  - intros H. unfold eod_message, eod_read.
    rewrite !(fun key dflt Hin => same_on_get _ d d' key dflt H Hin) by (simpl; tauto).
    reflexivity.
  - intros key v Hn. clear He.
    assert (same_on entry_keys ((key, v) :: d) d) as H.
    { intros k Hin. symmetry. exact (same_on_cons entry_keys d key v Hn k Hin). }
    unfold entry_message, entry_read, entry_embed, midnight_open, dict_getitem.
    rewrite !dict_has_as_lookup.
    rewrite (H "mo_bias") by (unfold entry_keys; simpl; tauto).
    rewrite !(fun k dflt Hin => same_on_get entry_keys _ d k dflt H Hin)
      by (unfold entry_keys; simpl; tauto).
    reflexivity.
Qed.

(** *** The end of day at zero and at NaN *)

Lemma eod_result_breakeven (pnl : float) :
  eod_result pnl = "BREAKEVEN" <-> float_eq0 pnl = true \/ pnl = S754_nan.
Proof.
  unfold eod_result.
  destruct pnl as [s|s| |s m e]; try destruct s; cbv;
    split; intros H; try discriminate; try tauto;
    destruct H; discriminate.
Qed.

(** X14.  An eod message says BREAKEVEN exactly when [pnl] is neither
    above nor below zero: when it is zero, of either sign, and also when
    it is a NaN, which is then printed as ["+nan pts"].  The message is
    red in both cases. *)
Theorem breakeven_at_zero_and_nan (now : Z) (d : dict) (price pnl : float) :
  py_float (dict_get d "price" (PInt 0)) = Ok price ->
  py_float (dict_get d "pnl" (PInt 0)) = Ok pnl ->
  exists e : embed,
    eod_message now d = Ok e
    /\ (field_value e "📋 Result" = Some (PStr "BREAKEVEN")
        <-> float_eq0 pnl = true \/ pnl = S754_nan)
    /\ (field_value e "📋 Result" = Some (PStr "BREAKEVEN") -> color e = RED)
    /\ (pnl = S754_nan -> field_value e "📊 P&L" = Some (PStr "+nan pts")).
Proof.
  intros H1 H2. rewrite (eod_message_ok now d price pnl H1 H2).
  eexists. split; [reflexivity|].
  assert (field_value (eod_embed now {| x_direction := dict_get d "direction" (PStr "UNKNOWN");
                                        x_price := price; x_amount := pnl |}) "📋 Result"
          = Some (PStr (eod_result pnl))) as R by reflexivity.
  rewrite R. cbn [color eod_embed x_amount].
  assert (Some (PStr (eod_result pnl)) = Some (PStr "BREAKEVEN")
          <-> eod_result pnl = "BREAKEVEN") as I
    by (split; [intros E; now inversion E | now intros ->]).
  split; [rewrite I; apply eod_result_breakeven|].
  split.
  - intros E. apply I in E. unfold eod_color. unfold eod_result in E.
    destruct (float_gt0 pnl); [discriminate E | reflexivity].
  - intros ->. reflexivity.
Qed.

End FormatterProperties.

(** ** The further properties at sample data *)

(** X1 with the channel id alone in the environment, and with nothing. *)
Lemma startup_needs_channel_id_witness :
  load_config (udb := ascii_only_db) 4300 sample_environ = Ok sample_cfg
  /\ exists e : exn,
      load_config (udb := ascii_only_db) 4300 (fun _ => None) = Raise e
      /\ exn_class_of e = TypeError.
Proof.
  split.
  - destruct (startup_needs_channel_id (udb := ascii_only_db) 4300 sample_environ)
      as [_ [_ [H _]]].
    apply (H "1234567890" 1234567890); vm_compute; reflexivity.
  - destruct (startup_needs_channel_id (udb := ascii_only_db) 4300 (fun _ => None))
      as [H _].
    apply H. reflexivity.
Defined.

(** X2 with the id 1234567890 and no channel under it. *)
Lemma channel_id_reads_back_witness :
  exists cfg : config,
    load_config (udb := ascii_only_db) 4300 sample_environ = Ok cfg
    /\ DISCORD_CHANNEL_ID cfg = 1234567890
    /\ send_alert (udb := ascii_only_db) lost_env cfg (PDict entry_example) idle
       = (Ok tt, {| stdout := ["Channel 1234567890 not found!"];
                    tasks := []; outbox := [] |}).
Proof.
  destruct (channel_id_reads_back (udb := ascii_only_db) 4300 sample_environ
              1234567890 lost_env "relay#0001" (PDict entry_example) idle)
    as [cfg [H1 [H2 [_ H4]]]].
  - vm_compute. reflexivity.
  - right. vm_compute. discriminate.
  - exists cfg. split; [exact H1|]. split; [exact H2|]. apply H4. reflexivity.
Defined.

(** X3 with a secret in the environment: the placeholder is refused. *)
Lemma secret_comes_from_environment_witness :
  status (fst (webhook sample_env
                 {| DISCORD_CHANNEL_ID := 42; WEBHOOK_SECRET := "s3cret" |}
                 (signed_request (PDict eod_example)) idle)) = 401.
Proof.
  apply (secret_comes_from_environment (udb := ascii_only_db) 4300 secret_environ
           {| DISCORD_CHANNEL_ID := 42; WEBHOOK_SECRET := "s3cret" |}
           sample_env (signed_request (PDict eod_example)) idle).
  - vm_compute. reflexivity.
  - vm_compute. discriminate.
Defined.

(** X4 with [PORT] set to 99999, which is no port, and with no [PORT]. *)
Lemma flask_port_is_not_checked_witness :
  flask_port (udb := ascii_only_db) 4300 port_environ = Ok 99999
  /\ flask_port (udb := ascii_only_db) 4300 sample_environ = Ok 5000.
Proof.
  split.
  - destruct (flask_port_is_not_checked (udb := ascii_only_db) 4300 port_environ)
      as [_ H].
    apply (H 99999); [reflexivity | right; vm_compute; discriminate].
  - destruct (flask_port_is_not_checked (udb := ascii_only_db) 4300 sample_environ)
      as [H _].
    apply H. reflexivity.
Defined.

(** X7 with text in [entry] that spells no number: 200, and nothing
    sent. *)
Lemma acknowledged_but_dropped_witness :
  fst (serve (udb := ascii_only_db) sample_env sample_cfg
         (signed_request (PDict entry_with_text)) idle)
  = {| body := PDict [("status", PStr "success")]; status := 200 |}
  /\ outbox (snd (serve (udb := ascii_only_db) sample_env sample_cfg
                    (signed_request (PDict entry_with_text)) idle)) = []
  /\ tasks (snd (serve (udb := ascii_only_db) sample_env sample_cfg
                   (signed_request (PDict entry_with_text)) idle)) = [].
Proof.
  apply (acknowledged_but_dropped (udb := ascii_only_db) sample_env sample_cfg
           (signed_request (PDict entry_with_text)) idle (PDict entry_with_text));
    try reflexivity.
  right. right. exists entry_with_text.
  exists (Exn ValueError "could not convert string to float: 'abc'").
  split; vm_compute; reflexivity.
Defined.

(** X8 with the sample entry alert. *)
Lemma accepted_alert_is_delivered_witness :
  exists msg : outgoing,
    serve (udb := ascii_only_db) sample_env sample_cfg
      (signed_request (PDict entry_example)) idle
    = ({| body := PDict [("status", PStr "success")]; status := 200 |},
       {| stdout := ["Received webhook: " ++ json_dumps 2 (PDict entry_example)];
          tasks := []; outbox := [msg] |}).
Proof.
  apply (accepted_alert_is_delivered (udb := ascii_only_db) sample_env sample_cfg
           (signed_request (PDict entry_example)) idle entry_example open_channel);
    reflexivity.
Defined.

(** X10 with a LONG position and a profit of -5.25: a tp2 message is
    green and a winner. *)
Lemma exit_colours_witness :
  exists e1 e2 : embed,
    tp1_message (udb := ascii_only_db) 1700000000 tp1_negative_example = Ok e1
    /\ tp2_message (udb := ascii_only_db) 1700000000 tp1_negative_example = Ok e2
    /\ color e1 = GREEN
    /\ color e2 = GREEN
    /\ field_value e2 "✅ Result" = Some (PStr "WINNER").
Proof.
  destruct (exit_colours (udb := ascii_only_db) 1700000000 tp1_negative_example f_4480)
    as [H _]; [vm_compute; reflexivity|].
  destruct (H minus_5_25) as [e1 [e2 [H1 [H2 [[_ H3] [_ [H4 H5]]]]]]];
    [vm_compute; reflexivity|].
  exists e1, e2. repeat split; try assumption. apply H3. reflexivity.
Defined.

(** X11 at the sample entry alert, and at the one with the stop above
    the entry. *)
Lemma entry_distances_show_plus_witness :
  (exists e : embed,
      entry_message (udb := ascii_only_db) 1700000000 entry_example = Ok e
      /\ field_value e "🛑 Stop Loss"
         = Some (PStr ("4,474.75" ++ newline ++ "(+5.25 pts)")))
  /\ (exists e : embed,
         entry_message (udb := ascii_only_db) 1700000000 entry_example_swapped = Ok e
         /\ field_value e "🛑 Stop Loss"
            = Some (PStr ("4,480.00" ++ newline ++ "(+5.25 pts)"))).
Proof.
  split.
  - destruct (entry_distances_show_plus (udb := ascii_only_db) 1700000000 entry_example
                f_4480 (S754_finite false 4920039656390656 (-40))
                (S754_finite false 4933508673830912 (-40)) f_4480)
      as [e [He [_ [_ [_ [Hs _]]]]]]; try (vm_compute; reflexivity).
    exists e. split; [exact He|]. rewrite Hs. vm_compute. reflexivity.
  - destruct (entry_distances_show_plus (udb := ascii_only_db) 1700000000
                entry_example_swapped
                (S754_finite false 4920039656390656 (-40)) f_4480
                (S754_finite false 4933508673830912 (-40)) f_4480)
      as [e [He [_ [_ [_ [Hs _]]]]]]; try (vm_compute; reflexivity).
    exists e. split; [exact He|]. rewrite Hs. vm_compute. reflexivity.
Defined.

(** X12 at the sample entry alert and the one with entry and stop
    exchanged: both show a risk of 5.25. *)
Lemma risk_is_symmetric_witness :
  exists e e' : embed,
    entry_message (udb := ascii_only_db) 1700000000 entry_example = Ok e
    /\ entry_message (udb := ascii_only_db) 1700000000 entry_example_swapped = Ok e'
    /\ field_value e "📊 Risk" = field_value e' "📊 Risk"
    /\ field_value e "📊 Risk" = Some (PStr "**5.25** pts").
Proof.
  destruct (entry_message (udb := ascii_only_db) 1700000000 entry_example)
    as [e|x] eqn:He; [|vm_compute in He; discriminate He].
  destruct (entry_message (udb := ascii_only_db) 1700000000 entry_example_swapped)
    as [e'|x] eqn:He'; [|vm_compute in He'; discriminate He'].
  exists e, e'. split; [reflexivity|]. split; [reflexivity|].
  destruct (risk_is_symmetric (udb := ascii_only_db) 1700000000
              entry_example entry_example_swapped
              f_4480 (S754_finite false 4920039656390656 (-40)) e e')
    as [H1 H2]; try (vm_compute; reflexivity); try assumption.
  split; [exact H1|]. rewrite H2. vm_compute. reflexivity.
Defined.

(** X13 at the sample entry alert with a [note] added. *)
Lemma formatters_read_only_their_keys_witness :
  entry_message (udb := ascii_only_db) 1700000000 entry_example_noted
  = entry_message (udb := ascii_only_db) 1700000000 entry_example.
Proof.
  destruct (formatters_read_only_their_keys (udb := ascii_only_db) 1700000000
              entry_example entry_example) as [_ [_ [_ [_ H]]]].
  apply (H "note" (PStr "manual")).
  unfold entry_keys. simpl. intuition discriminate.
Defined.

(** X14 with a [pnl] of zero and with the text [nan]. *)
Lemma breakeven_at_zero_and_nan_witness :
  (exists e : embed,
      eod_message (udb := ascii_only_db) 1700000000
        [("direction", PStr "LONG"); ("price", PFloat f_4480); ("pnl", PInt 0)] = Ok e
      /\ field_value e "📋 Result" = Some (PStr "BREAKEVEN")
      /\ color e = RED)
  /\ (exists e : embed,
         eod_message (udb := ascii_only_db) 1700000000
           [("direction", PStr "LONG"); ("price", PFloat f_4480); ("pnl", PStr "nan")]
         = Ok e
         /\ field_value e "📋 Result" = Some (PStr "BREAKEVEN")
         /\ field_value e "📊 P&L" = Some (PStr "+nan pts")).
Proof.
  split.
  - destruct (breakeven_at_zero_and_nan (udb := ascii_only_db) 1700000000
                [("direction", PStr "LONG"); ("price", PFloat f_4480); ("pnl", PInt 0)]
                f_4480 float_zero)
      as [e [He [[_ Hb] [Hc _]]]]; try (vm_compute; reflexivity).
    exists e. split; [exact He|].
    assert (field_value e "📋 Result" = Some (PStr "BREAKEVEN")) as R
      by (apply Hb; left; reflexivity).
    split; [exact R | exact (Hc R)].
  - destruct (breakeven_at_zero_and_nan (udb := ascii_only_db) 1700000000
                [("direction", PStr "LONG"); ("price", PFloat f_4480); ("pnl", PStr "nan")]
                f_4480 S754_nan)
      as [e [He [[_ Hb] [_ Hn]]]]; try (vm_compute; reflexivity).
    exists e. split; [exact He|].
    split; [apply Hb; right; reflexivity | apply Hn; reflexivity].
Defined.
